(** * Gemini TTS Studio: the usage-gated generation orchestrator

    A shallow embedding of [App.tsx] (the React component [App]), of the
    declarations of [types.ts] and of the voice catalogue of [constants.ts],
    followed by the properties of the orchestrator: admission, the
    generation state machine, the two quota counters, the minute timer,
    error classification and key rotation.

    Conventions of the embedding.
    - A JavaScript string is the list of its UTF-16 code units.
    - [minuteRequests] and [secondsUntilReset] only ever receive [0], [60],
      [prev + 1] and [prev - 1]; they are integers ([Z]).  [dailyRequests]
      also receives the result of [parseInt], which may be [NaN]; it is a
      [number].  Integers are taken in the range where JavaScript numbers
      are exact.
    - React state lives in the record [AppState]; the browser (local storage,
      the alert and console logs) in [Browser].  An event handler runs in the
      closure of the latest render, whose captured values are the current
      state.  The [async] handler [handleGenerate] is split at its [await]:
      [handleGenerate_begin] runs up to it, [handleGenerate_fulfilled] and
      [handleGenerate_rejected] are the continuation.  The continuation keeps
      the values its render captured and applies its setters to the state of
      the moment it resumes.
    - [generateSpeech] (services/geminiService) is outside the component: a
      call is recorded, and its outcome comes back as a [Settlement].  What a
      rejected call carries is an object.  [localStorage.setItem] is taken to
      succeed.  The clock is read as the ISO string [nowISO] that
      [new Date().toISOString()] returns at that moment. *)

From Stdlib Require Import ZArith Ascii String DecimalString DecimalPos.
From Stdlib Require Uint63 PrimFloat.
From stdpp Require Import gmap list strings.

Open Scope Z_scope.

(** ** JavaScript strings *)

Module JsString.

(** A string literal of the source (all are ASCII). *)
Definition lit (s : string) : list N :=
  map N_of_ascii (list_ascii_of_string s).

(** ECMAScript [WhiteSpace] and [LineTerminator] code points, which
    [String.prototype.trim] and [parseInt] strip. *)
Definition isWhiteSpace (c : N) : bool :=
  (existsb (N.eqb c)
     [0x0009; 0x000A; 0x000B; 0x000C; 0x000D; 0x0020; 0x00A0; 0x1680;
      0x2028; 0x2029; 0x202F; 0x205F; 0x3000; 0xFEFF]
   || ((0x2000 <=? c) && (c <=? 0x200A)))%N.

Fixpoint trimStart (s : list N) : list N :=
  match s with
  | c :: r => if isWhiteSpace c then trimStart r else s
  | [] => []
  end.

Definition trimEnd (s : list N) : list N := rev (trimStart (rev s)).

(** [s.trim()] *)
Definition trim (s : list N) : list N := trimEnd (trimStart s).

(** Truthiness of a string: every string but the empty one. *)
Definition truthy (s : list N) : bool :=
  match s with [] => false | _ => true end.

Fixpoint startsWith (s p : list N) {struct p} : bool :=
  match p, s with
  | [], _ => true
  | _ :: _, [] => false
  | a :: p', b :: s' => (a =? b)%N && startsWith s' p'
  end.

(** [s.includes(p)] *)
Fixpoint includes (s p : list N) : bool :=
  startsWith s p ||
  match s with
  | [] => false
  | _ :: s' => includes s' p
  end.

(** [s.split(sep)[0]] for a one-unit separator: the part of [s] before
    the first occurrence of [sep] (all of [s] when there is none). *)
Fixpoint splitHead (sep : N) (s : list N) : list N :=
  match s with
  | [] => []
  | c :: r => if (c =? sep)%N then [] else c :: splitHead sep r
  end.

End JsString.

Abbreviation jsstring := (list N).
Notation "'js:' s" := (JsString.lit s) (at level 1, s at level 0, only parsing).

(** ** JavaScript numbers, as far as the component uses them *)

Inductive number : Type :=
| NaN
| Int (z : Z).

Module JsNumber.

(** [a >= b]: false as soon as an operand is [NaN]. *)
Definition ge (a b : number) : bool :=
  match a, b with
  | Int x, Int y => x >=? y
  | _, _ => false
  end.

(** [a + 1] *)
Definition succ (a : number) : number :=
  match a with
  | Int x => Int (x + 1)
  | NaN => NaN
  end.

(** Decimal digits of an integer, as [Number.prototype.toString] and
    template literals print it. *)
Definition ZtoString (z : Z) : list N :=
  JsString.lit (NilEmpty.string_of_int (Z.to_int z)).

(** [a.toString()] *)
Definition toString (a : number) : list N :=
  match a with
  | Int x => ZtoString x
  | NaN => JsString.lit "NaN"
  end.

Definition isDigit (c : N) : bool := ((48 <=? c) && (c <=? 57))%N.

(** The longest prefix of decimal digits, accumulated left to right;
    [None] when [s] does not start with a digit. *)
Fixpoint digits (acc : option Z) (s : list N) : option Z :=
  match s with
  | c :: r =>
      if isDigit c
      then digits (Some (10 * default 0 acc + (Z.of_N c - 48))) r
      else acc
  | [] => acc
  end.

(** [parseInt(s, 10)]: leading white space is skipped, then an optional
    sign, then the longest run of digits; [NaN] when there is no digit. *)
Definition parseInt (s : list N) : number :=
  let s1 := JsString.trimStart s in
  let '(sign, s2) :=
    match s1 with
    | 45%N :: r => (-1, r)
    | 43%N :: r => (1, r)
    | _ => (1, s1)
    end in
  match digits None s2 with
  | Some v => Int (sign * v)
  | None => NaN
  end.

End JsNumber.

(** ** [types.ts] *)

Record VoiceOption : Type := mkVoice {
  id : jsstring;
  name : jsstring;
  gender : jsstring;
  description : jsstring;
  realVoiceId : jsstring
}.

Inductive TTSStatus : Type := IDLE | GENERATING | SUCCESS | ERROR.

#[global] Instance TTSStatus_eq_dec : EqDecision TTSStatus.
Proof. solve_decision. Defined.

Record GeneratedAudio : Type := mkAudio {
  wavUrl : jsstring;
  base64Audio : jsstring
}.

(** ** [constants.ts] *)

Definition VOICES : list VoiceOption :=
  [ mkVoice js:"Aoede" js:"Aoede" js:"Female"
      js:"Experienced, professional, and confident." js:"Aoede";
    mkVoice js:"Kore" js:"Kore" js:"Female"
      js:"Calm, reassuring, and soothing." js:"Kore";
    mkVoice js:"Male_7" js:"Charles (Formal)" js:"Male"
      js:"Formal, precise, business-oriented." js:"Charon";
    mkVoice js:"Male_10" js:"Chris (Calm)" js:"Male"
      js:"Steady, low-pitch, relaxing." js:"Charon" ].

(** ** [App.tsx] *)

Definition DAILY_REQUEST_LIMIT : Z := 1500.
Definition MINUTE_REQUEST_LIMIT : Z := 15.

(** [VOICES.find(v => v.id === "Kore")?.id || VOICES[0].id] *)
Definition defaultVoice : jsstring :=
  match find (fun v => bool_decide (id v = js:"Kore")) VOICES with
  | Some v => if JsString.truthy (id v) then id v else from_option id [] (head VOICES)
  | None => from_option id [] (head VOICES)
  end.

(** The [useState] cells of the component. *)
Record AppState : Type := mkApp {
  selectedVoice : jsstring;
  text : jsstring;
  targetDuration : jsstring;
  status : TTSStatus;
  generatedAudio : option GeneratedAudio;
  errorMsg : option jsstring;
  dailyRequests : number;
  minuteRequests : Z;
  secondsUntilReset : Z
}.

(** What a rejected [generateSpeech] promise carries ([err: any]): an
    object whose [message] and [status] may be missing. *)
Record JsError : Type := mkError {
  message : option jsstring;
  err_status : option Z
}.

(** The browser side: [localStorage], and the logs of [alert] and
    [console.error]. *)
Record Browser : Type := mkBrowser {
  localStorage : gmap (list N) (list N);
  alerts : list jsstring;
  console : list JsError
}.

Definition setSelectedVoice (v : jsstring) (s : AppState) : AppState :=
  mkApp v (text s) (targetDuration s) (status s) (generatedAudio s)
    (errorMsg s) (dailyRequests s) (minuteRequests s) (secondsUntilReset s).
Definition setText (v : jsstring) (s : AppState) : AppState :=
  mkApp (selectedVoice s) v (targetDuration s) (status s) (generatedAudio s)
    (errorMsg s) (dailyRequests s) (minuteRequests s) (secondsUntilReset s).
Definition setTargetDuration (v : jsstring) (s : AppState) : AppState :=
  mkApp (selectedVoice s) (text s) v (status s) (generatedAudio s)
    (errorMsg s) (dailyRequests s) (minuteRequests s) (secondsUntilReset s).
Definition setStatus (v : TTSStatus) (s : AppState) : AppState :=
  mkApp (selectedVoice s) (text s) (targetDuration s) v (generatedAudio s)
    (errorMsg s) (dailyRequests s) (minuteRequests s) (secondsUntilReset s).
Definition setGeneratedAudio (v : option GeneratedAudio) (s : AppState) : AppState :=
  mkApp (selectedVoice s) (text s) (targetDuration s) (status s) v
    (errorMsg s) (dailyRequests s) (minuteRequests s) (secondsUntilReset s).
Definition setErrorMsg (v : option jsstring) (s : AppState) : AppState :=
  mkApp (selectedVoice s) (text s) (targetDuration s) (status s)
    (generatedAudio s) v (dailyRequests s) (minuteRequests s)
    (secondsUntilReset s).
Definition setDailyRequests (v : number) (s : AppState) : AppState :=
  mkApp (selectedVoice s) (text s) (targetDuration s) (status s)
    (generatedAudio s) (errorMsg s) v (minuteRequests s) (secondsUntilReset s).
(** [setMinuteRequests] and [setSecondsUntilReset] take a value or an
    updater from the previous value; both are written as updaters here. *)
Definition setMinuteRequests (f : Z -> Z) (s : AppState) : AppState :=
  mkApp (selectedVoice s) (text s) (targetDuration s) (status s)
    (generatedAudio s) (errorMsg s) (dailyRequests s) (f (minuteRequests s))
    (secondsUntilReset s).
Definition setSecondsUntilReset (f : Z -> Z) (s : AppState) : AppState :=
  mkApp (selectedVoice s) (text s) (targetDuration s) (status s)
    (generatedAudio s) (errorMsg s) (dailyRequests s) (minuteRequests s)
    (f (secondsUntilReset s)).

(** [localStorage.setItem], [removeItem], and [alert]. *)
Definition setItem (k v : jsstring) (b : Browser) : Browser :=
  mkBrowser (<[k := v]> (localStorage b)) (alerts b) (console b).
Definition removeItem (k : jsstring) (b : Browser) : Browser :=
  mkBrowser (delete k (localStorage b)) (alerts b) (console b).
Definition alert (m : jsstring) (b : Browser) : Browser :=
  mkBrowser (localStorage b) (alerts b ++ [m]) (console b).
Definition console_error (e : JsError) (b : Browser) : Browser :=
  mkBrowser (localStorage b) (alerts b) (console b ++ [e]).

(** [new Date().toISOString().split('T')[0]], from the ISO string the
    clock gives at the moment of the call. *)
Definition today (nowISO : jsstring) : jsstring :=
  JsString.splitHead 84%N nowISO.

(** [`gemini_tts_usage_${today}`] *)
Definition storageKey (nowISO : jsstring) : jsstring :=
  js:"gemini_tts_usage_" ++ today nowISO.

(** The state of the first render. *)
Definition initialState : AppState :=
  mkApp defaultVoice [] [] IDLE None None (Int 0) 0 60.

(** The mount effect, part 1: load the daily usage. *)
Definition loadDailyUsage (nowISO : jsstring) (b : Browser) (s : AppState) : AppState :=
  match localStorage b !! storageKey nowISO with
  | Some savedUsage =>
      if JsString.truthy savedUsage
      then setDailyRequests (JsNumber.parseInt savedUsage) s
      else setDailyRequests (Int 0) s
  | None => setDailyRequests (Int 0) s
  end.

(** The mount effect, part 2: what the interval timer does every second. *)
Definition tick (s : AppState) : AppState :=
  if secondsUntilReset s <=? 1
  then setSecondsUntilReset (fun _ => 60) (setMinuteRequests (fun _ => 0) s)
  else setSecondsUntilReset (fun prev => prev - 1) s.

(** The component together with the browser it runs in. *)
Record World : Type := mkWorld {
  app : AppState;
  browser : Browser
}.

Definition onApp (f : AppState -> AppState) (w : World) : World :=
  mkWorld (f (app w)) (browser w).
Definition onBrowser (f : Browser -> Browser) (w : World) : World :=
  mkWorld (app w) (f (browser w)).

(** [incrementUsage], in the closure of render [r]: [dailyRequests] is the
    value that render captured, the date is read when the function runs,
    and the minute count is updated from its previous value. *)
Definition incrementUsage (r : AppState) (nowISO : jsstring) (w : World) : World :=
  let newDailyCount := JsNumber.succ (dailyRequests r) in
  let w := onApp (setDailyRequests newDailyCount) w in
  let w := onBrowser (setItem (storageKey nowISO) (JsNumber.toString newDailyCount)) w in
  onApp (setMinuteRequests (fun prev => prev + 1)) w.

Definition MSG_EMPTY : jsstring :=
  js:"Please enter some text to generate speech.".
Definition MSG_DAILY : jsstring :=
  js:"Daily limit reached (1500). Please try tomorrow or use a paid key.".
Definition MSG_MINUTE (seconds : Z) : jsstring :=
  js:"Speed limit reached! Please wait " ++ JsNumber.ZtoString seconds
  ++ js:" seconds for the minute quota to reset.".
Definition MSG_QUOTA : jsstring :=
  js:"Quota exceeded (429). The system is busy. Please wait a moment.".
Definition MSG_FAILED : jsstring :=
  js:"Failed to generate speech. Please try again.".

(** A call of the absent [generateSpeech(text, selectedVoice)]. *)
Record SpeechCall : Type := mkCall {
  call_text : jsstring;
  call_voice : jsstring
}.

(** [handleGenerate] up to its [await].  The result says whether
    [generateSpeech] has been called, and with what. *)
Definition handleGenerate_begin (s : AppState) : AppState * option SpeechCall :=
  if negb (JsString.truthy (JsString.trim (text s))) then
    (setErrorMsg (Some MSG_EMPTY) s, None)
  else if JsNumber.ge (dailyRequests s) (Int DAILY_REQUEST_LIMIT) then
    (setErrorMsg (Some MSG_DAILY) s, None)
  else if minuteRequests s >=? MINUTE_REQUEST_LIMIT then
    (setErrorMsg (Some (MSG_MINUTE (secondsUntilReset s))) s, None)
  else
    (setGeneratedAudio None (setStatus GENERATING (setErrorMsg None s)),
     Some (mkCall (text s) (selectedVoice s))).

(** The condition of the [catch] block:
    [err.message?.includes('429') || err.status === 429 ||
     err.message?.includes('RESOURCE_EXHAUSTED')]. *)
Definition isQuotaError (err : JsError) : bool :=
  from_option (fun m => JsString.includes m js:"429") false (message err)
  || bool_decide (err_status err = Some 429)
  || from_option (fun m => JsString.includes m js:"RESOURCE_EXHAUSTED") false
       (message err).

(** [err.message || "Failed to generate speech. Please try again."] *)
Definition messageOrDefault (err : JsError) : jsstring :=
  match message err with
  | Some m => if JsString.truthy m then m else MSG_FAILED
  | None => MSG_FAILED
  end.

(** [handleGenerate] after its [await], when the promise is fulfilled with
    [result]; [r] is the render whose closure the handler runs in. *)
Definition handleGenerate_fulfilled
    (r : AppState) (nowISO : jsstring) (result : GeneratedAudio) (w : World) : World :=
  let w := onApp (setGeneratedAudio (Some result)) w in
  let w := onApp (setStatus SUCCESS) w in
  incrementUsage r nowISO w.

(** [handleGenerate] after its [await], when the promise is rejected. *)
Definition handleGenerate_rejected (err : JsError) (w : World) : World :=
  let w := onBrowser (console_error err) w in
  let w := onApp (setStatus ERROR) w in
  if isQuotaError err
  then onApp (setErrorMsg (Some MSG_QUOTA)) w
  else onApp (setErrorMsg (Some (messageOrDefault err))) w.

(** How a [generateSpeech] promise settles. *)
Inductive Settlement : Type :=
| Fulfilled (result : GeneratedAudio)
| Rejected (err : JsError).

Definition handleGenerate_settle
    (r : AppState) (nowISO : jsstring) (o : Settlement) (w : World) : World :=
  match o with
  | Fulfilled result => handleGenerate_fulfilled r nowISO result w
  | Rejected err => handleGenerate_rejected err w
  end.

(** [handleTextChange] *)
Definition handleTextChange (value : jsstring) (s : AppState) : AppState :=
  let s' := setText value s in
  match errorMsg s with
  | Some m => if JsString.truthy m then setErrorMsg None s' else s'
  | None => s'
  end.

(** [window.aistudio?.openSelectKey]: missing, or present, in which case
    the awaited call completes or fails. *)
Inductive KeySelector : Type :=
| Unavailable
| Available (completes : bool).

Definition MSG_KEY_UPDATED : jsstring :=
  js:"API Key updated. Usage counters have been reset.".
Definition MSG_KEY_UNAVAILABLE : jsstring :=
  js:"API Key selection is not available in this environment.".

(** [handleChangeApiKey]; the key dialog is modal, so the handler is one
    step. *)
Definition handleChangeApiKey (aistudio : KeySelector) (nowISO : jsstring) (w : World) : World :=
  match aistudio with
  | Available true =>
      let w := onApp (setErrorMsg None) w in
      let w := onApp (setStatus IDLE) w in
      let w := onApp (setDailyRequests (Int 0)) w in
      let w := onApp (setMinuteRequests (fun _ => 0)) w in
      let w := onApp (setSecondsUntilReset (fun _ => 60)) w in
      let w := onBrowser (removeItem (storageKey nowISO)) w in
      onBrowser (alert MSG_KEY_UPDATED) w
  | Available false => w
  | Unavailable => onBrowser (alert MSG_KEY_UNAVAILABLE) w
  end.

(** Calculations for the UI. *)
Definition minuteRemaining (s : AppState) : Z :=
  MINUTE_REQUEST_LIMIT - minuteRequests s.
Definition isMinuteFull (s : AppState) : bool := minuteRemaining s <=? 0.

(** The [disabled] attribute of the generate button:
    [status === TTSStatus.GENERATING || !text.trim() || isMinuteFull]. *)
Definition generateDisabled (s : AppState) : bool :=
  bool_decide (status s = GENERATING)
  || negb (JsString.truthy (JsString.trim (text s)))
  || isMinuteFull s.

(** ** The component as an event-driven system

    Between two events the component is at rest.  [inflight] holds the
    suspended [handleGenerate] calls, each as the render whose closure it
    runs in (the state at the moment the handler was entered). *)
Record Sys : Type := mkSys {
  world : World;
  inflight : list AppState
}.

Inductive Event : Type :=
| Tick
| TextChange (value : jsstring)
| SelectVoice (voice : jsstring)
| PressGenerate
| CallGenerate
| Settle (i : nat) (nowISO : jsstring) (o : Settlement)
| ChangeApiKey (aistudio : KeySelector) (nowISO : jsstring).

(** [handleGenerate] is entered: it runs up to its [await] and, when it
    has called [generateSpeech], stays suspended. *)
Definition enterGenerate (sys : Sys) : Sys :=
  let r := app (world sys) in
  match handleGenerate_begin r with
  | (s', Some _) => mkSys (mkWorld s' (browser (world sys))) (inflight sys ++ [r])
  | (s', None) => mkSys (mkWorld s' (browser (world sys))) (inflight sys)
  end.

(** [PressGenerate] is a press of the generate button, whose [onClick]
    does not fire while the button is disabled; [CallGenerate] enters
    [handleGenerate] whatever the button says. *)
Definition step (e : Event) (sys : Sys) : Sys :=
  match e with
  | Tick => mkSys (onApp tick (world sys)) (inflight sys)
  | TextChange value =>
      mkSys (onApp (handleTextChange value) (world sys)) (inflight sys)
  | SelectVoice voice =>
      mkSys (onApp (setSelectedVoice voice) (world sys)) (inflight sys)
  | PressGenerate =>
      if generateDisabled (app (world sys)) then sys else enterGenerate sys
  | CallGenerate => enterGenerate sys
  | Settle i nowISO o =>
      match inflight sys !! i with
      | Some r =>
          mkSys (handleGenerate_settle r nowISO o (world sys))
            (delete i (inflight sys))
      | None => sys
      end
  | ChangeApiKey aistudio nowISO =>
      mkSys (handleChangeApiKey aistudio nowISO (world sys)) (inflight sys)
  end.

Definition run (evs : list Event) (sys : Sys) : Sys :=
  foldl (fun acc e => step e acc) sys evs.

(** The component once mounted at [nowISO] in browser [b]. *)
Definition mount (nowISO : jsstring) (b : Browser) : Sys :=
  mkSys (mkWorld (loadDailyUsage nowISO b initialState) b) [].

(** The daily count the store holds for the date of [nowISO]: what the
    mount effect would load. *)
Definition persistedDaily (nowISO : jsstring) (b : Browser) : number :=
  dailyRequests (loadDailyUsage nowISO b initialState).

(** A run is serial when [handleGenerate] is entered only while no call is
    in flight. *)
Fixpoint serial (evs : list Event) (sys : Sys) : bool :=
  match evs with
  | [] => true
  | e :: evs' =>
      match e with
      | PressGenerate | CallGenerate =>
          bool_decide (inflight sys = [])
      | _ => true
      end && serial evs' (step e sys)
  end.


(** ** Vocabulary of the properties *)

(** [p] occurs in [s] as a contiguous run of code units. *)
Definition contains (s p : jsstring) : Prop :=
  exists a b, s = a ++ p ++ b.

(** The daily count is a number that has reached [limit]. *)
Definition dailyReached (limit : Z) (s : AppState) : Prop :=
  exists d, dailyRequests s = Int d /\ limit <= d.

(** The three ways an error counts as quota-exceeded. *)
Definition QuotaExceeded (err : JsError) : Prop :=
  (exists m, message err = Some m /\ contains m js:"429")
  \/ err_status err = Some 429
  \/ (exists m, message err = Some m /\ contains m js:"RESOURCE_EXHAUSTED").

(** Sample values used by the examples. *)
Definition sampleAudio : GeneratedAudio := mkAudio js:"blob:wav" js:"UklGRg==".
Definition emptyBrowser : Browser := mkBrowser ∅ [] [].
Definition typed (t : jsstring) : AppState := setText t initialState.

(** Two instants, one on each side of a midnight. *)
Definition dayD : jsstring := js:"2025-03-01T23:59:40.000Z".
Definition dayD1 : jsstring := js:"2025-03-02T00:00:20.000Z".

(** A component showing a result, with counters in use and a record in
    the store. *)
Definition usedWorld : World :=
  mkWorld
    (mkApp js:"Kore" js:"hi" [] SUCCESS (Some sampleAudio) None (Int 800) 10 42)
    (mkBrowser {[ storageKey dayD := js:"800" ]} [] []).

(** A component with one generation in flight. *)
Definition generatingSys : Sys :=
  run [TextChange js:"hi"; PressGenerate] (mount dayD emptyBrowser).

(** Sixteen generations entered on top of each other, all fulfilled. *)
Definition overlappingRun : list Event :=
  [TextChange js:"hi"] ++ replicate 16 CallGenerate
  ++ replicate 16 (Settle 0 dayD (Fulfilled sampleAudio)).

(** What a serial run preserves: the minute count has room for the calls
    in flight, of which there is at most one. *)
Definition minuteInv (sys : Sys) : Prop :=
  minuteRequests (app (world sys)) + Z.of_nat (length (inflight sys)) <= 15
  /\ (length (inflight sys) <= 1)%nat.

(** A session that starts on day D with an empty store, generates once
    before midnight and once after it. *)
Definition beforeMidnight : Sys :=
  run [TextChange js:"hi"; PressGenerate; Settle 0 dayD (Fulfilled sampleAudio)]
    (mount dayD emptyBrowser).
Definition afterMidnight : Sys :=
  run [Tick; PressGenerate; Settle 0 dayD1 (Fulfilled sampleAudio)] beforeMidnight.

(** A session that starts on day D with the daily quota used up, and is
    asked to generate on the next day. *)
Definition exhaustedNextDay : Sys :=
  run [TextChange js:"hi"; Tick; PressGenerate]
    (mount dayD (mkBrowser {[ storageKey dayD := js:"1500" ]} [] [])).


(** ** What the render shows

    The parts of the JSX that depend on the state. *)

(** [DAILY_REQUEST_LIMIT - dailyRequests] *)
Definition dailyRemaining (s : AppState) : number :=
  match dailyRequests s with
  | Int d => Int (DAILY_REQUEST_LIMIT - d)
  | NaN => NaN
  end.

(** [{errorMsg && (...)}]: the banner and the message it shows. *)
Definition errorBanner (s : AppState) : option jsstring :=
  match errorMsg s with
  | Some m => if JsString.truthy m then Some m else None
  | None => None
  end.

(** [{errorMsg.includes('Quota exceeded') && (...)}], inside the banner:
    the link that calls [handleChangeApiKey]. *)
Definition changeKeyLink (s : AppState) : bool :=
  match errorBanner s with
  | Some m => JsString.includes m js:"Quota exceeded"
  | None => false
  end.

(** ** Vocabulary of the further properties *)

(** The instant an event reads the clock at, if it does. *)
Definition eventTime (e : Event) : option jsstring :=
  match e with
  | Settle _ t _ | ChangeApiKey _ t => Some t
  | _ => None
  end.

(** An event of the page itself: [handleGenerate] is reached through the
    button only, and no key selection completes. *)
Definition pageEvent (e : Event) : Prop :=
  match e with
  | CallGenerate => False
  | ChangeApiKey (Available true) _ => False
  | _ => True
  end.

(** No key selection completes. *)
Definition noRotation (e : Event) : Prop :=
  match e with
  | ChangeApiKey (Available true) _ => False
  | _ => True
  end.

(** A daily count that is a number is within the limit. *)
Definition withinDaily (n : number) : Prop :=
  forall d, n = Int d -> d <= DAILY_REQUEST_LIMIT.

(** ** The daily bar

    [dailyPercentage] is computed in floating point; here it is computed
    with the binary64 operations of the kernel. *)

(** An integer of the exact range as a JavaScript number. *)
Definition floatOfZ (z : Z) : PrimFloat.float :=
  match z with
  | Z0 => PrimFloat.zero
  | Zpos _ => PrimFloat.of_uint63 (Uint63.of_Z z)
  | Zneg _ => PrimFloat.opp (PrimFloat.of_uint63 (Uint63.of_Z (- z)))
  end.

Definition toFloat (n : number) : PrimFloat.float :=
  match n with
  | Int z => floatOfZ z
  | NaN => PrimFloat.nan
  end.

(** [Math.min(a, b)] for operands that are not zeros. *)
Definition Math_min (a b : PrimFloat.float) : PrimFloat.float :=
  if PrimFloat.is_nan a || PrimFloat.is_nan b then PrimFloat.nan
  else if PrimFloat.ltb b a then b else a.

(** [Math.min(100, (dailyRequests / DAILY_REQUEST_LIMIT) * 100)] *)
Definition dailyPercentage (s : AppState) : PrimFloat.float :=
  Math_min (floatOfZ 100)
    (PrimFloat.mul
       (PrimFloat.div (toFloat (dailyRequests s)) (floatOfZ DAILY_REQUEST_LIMIT))
       (floatOfZ 100)).

(** [let barColor = "bg-blue-500"; if (dailyPercentage > 75) ...;
    if (dailyPercentage > 90) ...] *)
Definition barColor (s : AppState) : jsstring :=
  let barColor := js:"bg-blue-500" in
  let barColor :=
    if PrimFloat.ltb (floatOfZ 75) (dailyPercentage s)
    then js:"bg-yellow-500" else barColor in
  if PrimFloat.ltb (floatOfZ 90) (dailyPercentage s)
  then js:"bg-red-500" else barColor.

(** The colour by the count, and the check of one count against it. *)
Definition barColorOfCount (d : Z) : jsstring :=
  if 1350 <? d then js:"bg-red-500"
  else if 1125 <? d then js:"bg-yellow-500"
  else js:"bg-blue-500".

Definition barChecked (s : AppState) (n : nat) : bool :=
  let s' := setDailyRequests (Int (Z.of_nat n)) s in
  bool_decide (barColor s' = barColorOfCount (Z.of_nat n))
  && PrimFloat.leb (dailyPercentage s') (floatOfZ 100).

(** * Properties *)

(** ** Strings *)

Section StringFacts.

Implicit Types s p : list N.

Lemma trimStart_nil_iff s :
  JsString.trimStart s = [] <-> forallb JsString.isWhiteSpace s = true.
Proof.
  induction s as [|c r IH]; simpl; [tauto|].
  destruct (JsString.isWhiteSpace c); simpl; [exact IH|].
  split; discriminate.
Qed.

Lemma trimStart_suffix s : exists a,
  s = a ++ JsString.trimStart s /\ forallb JsString.isWhiteSpace a = true.
Proof.
  induction s as [|c r (a & Ha & Hw)]; simpl.
  - exists []. auto.
  - destruct (JsString.isWhiteSpace c) eqn:Hc.
    + exists (c :: a). simpl. rewrite Hc, Hw. split; [congruence|reflexivity].
    + exists []. auto.
Qed.

Lemma trimStart_head s c : forall r,
  JsString.trimStart s = c :: r -> JsString.isWhiteSpace c = false.
Proof.
  induction s as [|c' s IH]; simpl; intros r; [discriminate|].
  destruct (JsString.isWhiteSpace c') eqn:Hc; [apply IH|].
  intros [= <- _]. exact Hc.
Qed.

(** The trimmed text is empty exactly when the text is white space only. *)
Lemma trim_nil_iff s :
  JsString.trim s = [] <-> forallb JsString.isWhiteSpace s = true.
Proof.
  unfold JsString.trim, JsString.trimEnd.
  rewrite <- trimStart_nil_iff.
  split; intros H.
  - apply (f_equal (@rev N)) in H. rewrite rev_involutive in H. simpl in H.
    apply trimStart_nil_iff in H. rewrite forallb_forall in H.
    pose proof (trimStart_head s) as Hh.
    destruct (JsString.trimStart s) as [|c r]; [reflexivity|].
    specialize (Hh c r eq_refl). rewrite (H c) in Hh; [discriminate Hh|].
    apply in_rev. rewrite rev_involutive. now left.
  - rewrite H. reflexivity.
Qed.

Lemma startsWith_spec s p :
  JsString.startsWith s p = true <-> exists b, s = p ++ b.
Proof.
  revert s; induction p as [|a p IH]; intros s; simpl.
  - split; [intros _; now exists s | reflexivity].
  - destruct s as [|c s].
    + split; [discriminate|]. intros (b & Hb). discriminate.
    + rewrite andb_true_iff, N.eqb_eq, IH. split.
      * intros (-> & b & ->). eauto.
      * intros (b & Hb). injection Hb as -> ->. eauto.
Qed.

(** [includes] finds exactly the contiguous occurrences. *)
Lemma includes_spec s p :
  JsString.includes s p = true <-> exists a b, s = a ++ p ++ b.
Proof.
  induction s as [|c s IH]; simpl; rewrite orb_true_iff, startsWith_spec.
  - split.
    + intros [(b & Hb) | ?]; [|discriminate]. exists [], b. exact Hb.
    + intros (a & b & H). left. destruct a; simpl in H.
      * eauto.
      * discriminate.
  - rewrite IH. split.
    + intros [(b & Hb) | (a & b & ->)].
      * exists [], b. exact Hb.
      * exists (c :: a), b. reflexivity.
    + intros (a & b & H). destruct a as [|c' a]; simpl in H.
      * left. eauto.
      * right. injection H as -> ->. eauto.
Qed.

End StringFacts.

(** ** Numbers: what is written to the store is read back *)

Section NumberFacts.









End NumberFacts.

(** ** Admission *)

Section Admission.

Lemma ge_spec a k :
  JsNumber.ge a (Int k) = true <-> exists d, a = Int d /\ k <= d.
Proof.
  destruct a as [|x]; simpl.
  - split; [discriminate|]. intros (d & Hd & _). discriminate.
  - rewrite Z.geb_le. split.
    + intros H. exists x. auto.
    + intros (d & [= ->] & H). exact H.
Qed.

Lemma truthy_trim_false t :
  JsString.truthy (JsString.trim t) = false <-> JsString.trim t = [].
Proof. destruct (JsString.trim t); simpl; split; congruence. Qed.

(** The four outcomes of [handleGenerate_begin], by the conditions that
    select them. *)
Lemma begin_empty s :
  JsString.trim (text s) = [] ->
  handleGenerate_begin s = (setErrorMsg (Some MSG_EMPTY) s, None).
Proof. intros H. unfold handleGenerate_begin. now rewrite H. Qed.

Lemma begin_daily s :
  JsString.trim (text s) <> [] -> dailyReached 1500 s ->
  handleGenerate_begin s = (setErrorMsg (Some MSG_DAILY) s, None).
Proof.
  intros Ht Hd. unfold handleGenerate_begin.
  destruct (JsString.trim (text s)); [congruence|]. simpl.
  apply ge_spec in Hd. unfold DAILY_REQUEST_LIMIT. now rewrite Hd.
Qed.

Lemma begin_minute s :
  JsString.trim (text s) <> [] -> ~ dailyReached 1500 s ->
  15 <= minuteRequests s ->
  handleGenerate_begin s =
    (setErrorMsg (Some (MSG_MINUTE (secondsUntilReset s))) s, None).
Proof.
  intros Ht Hd Hm. unfold handleGenerate_begin.
  destruct (JsString.trim (text s)); [congruence|]. simpl.
  destruct (JsNumber.ge _ _) eqn:E; [apply ge_spec in E; contradiction|].
  unfold MINUTE_REQUEST_LIMIT.
  destruct (Z.geb_spec (minuteRequests s) 15); [reflexivity|lia].
Qed.

Lemma begin_allowed s :
  JsString.trim (text s) <> [] -> ~ dailyReached 1500 s ->
  minuteRequests s < 15 ->
  handleGenerate_begin s =
    (setGeneratedAudio None (setStatus GENERATING (setErrorMsg None s)),
     Some (mkCall (text s) (selectedVoice s))).
Proof.
  intros Ht Hd Hm. unfold handleGenerate_begin.
  destruct (JsString.trim (text s)); [congruence|]. simpl.
  destruct (JsNumber.ge _ _) eqn:E; [apply ge_spec in E; contradiction|].
  unfold MINUTE_REQUEST_LIMIT.
  destruct (Z.geb_spec (minuteRequests s) 15); [lia|reflexivity].
Qed.

Lemma below_not_reached s d :
  dailyRequests s = Int d -> d < 1500 -> ~ dailyReached 1500 s.
Proof. intros H Hlt (d' & Hd' & Hle). rewrite H in Hd'. injection Hd' as ->. lia. Qed.

(** The three denial messages tell the reasons apart. *)
Lemma denial_messages_distinct z :
  MSG_EMPTY <> MSG_DAILY /\ MSG_MINUTE z <> MSG_EMPTY /\ MSG_MINUTE z <> MSG_DAILY.
Proof. repeat split; discriminate. Qed.

(** A denial is one of the three conditions, and is what leaves
    [generateSpeech] uncalled. *)
Lemma begin_no_call_iff s :
  snd (handleGenerate_begin s) = None <->
  JsString.trim (text s) = [] \/ dailyReached 1500 s \/ 15 <= minuteRequests s.
Proof.
  destruct (decide (JsString.trim (text s) = [])) as [Ht|Ht].
  { rewrite begin_empty by assumption. simpl. tauto. }
  destruct (JsNumber.ge (dailyRequests s) (Int 1500)) eqn:E.
  { apply ge_spec in E. rewrite begin_daily by assumption. simpl. tauto. }
  assert (Hd : ~ dailyReached 1500 s).
  { intros H. apply ge_spec in H. congruence. }
  destruct (Z_lt_le_dec (minuteRequests s) 15) as [Hm|Hm].
  - rewrite begin_allowed by assumption. simpl.
    split; [discriminate|]. intros [?|[?|?]]; [contradiction|contradiction|lia].
  - rewrite begin_minute by assumption. simpl. tauto.
Qed.

End Admission.

(** C1. Admission is decided in a fixed order: a text that is empty once
    trimmed is denied with the empty-input message; otherwise a daily count
    of 1500 or more is denied with the daily-limit message; otherwise a
    minute count of 15 or more is denied with the minute-limit message;
    otherwise the call is allowed.  A denial calls no synthesis; with
    [dailyRequests < 1500], [minuteRequests < 15] and a non-empty trimmed
    text, [generateSpeech] is called with the text and the selected voice. *)
Theorem C1_admission_order (s : AppState) :
  (JsString.trim (text s) = [] ->
     handleGenerate_begin s = (setErrorMsg (Some MSG_EMPTY) s, None))
  /\ (JsString.trim (text s) <> [] -> dailyReached 1500 s ->
     handleGenerate_begin s = (setErrorMsg (Some MSG_DAILY) s, None))
  /\ (JsString.trim (text s) <> [] -> ~ dailyReached 1500 s ->
      15 <= minuteRequests s ->
     handleGenerate_begin s =
       (setErrorMsg (Some (MSG_MINUTE (secondsUntilReset s))) s, None))
  /\ (JsString.trim (text s) <> [] -> ~ dailyReached 1500 s ->
      minuteRequests s < 15 ->
     handleGenerate_begin s =
       (setGeneratedAudio None (setStatus GENERATING (setErrorMsg None s)),
        Some (mkCall (text s) (selectedVoice s))))
  /\ (forall d, JsString.trim (text s) <> [] -> dailyRequests s = Int d ->
      d < 1500 -> minuteRequests s < 15 ->
     snd (handleGenerate_begin s) = Some (mkCall (text s) (selectedVoice s)))
  /\ (MSG_EMPTY <> MSG_DAILY
      /\ MSG_MINUTE (secondsUntilReset s) <> MSG_EMPTY
      /\ MSG_MINUTE (secondsUntilReset s) <> MSG_DAILY).
Proof.
  split; [apply begin_empty|].
  split; [apply begin_daily|].
  split; [apply begin_minute|].
  split; [apply begin_allowed|].
  split; [|apply denial_messages_distinct].
  intros d Ht Hd Hlt Hm.
  rewrite begin_allowed; eauto using below_not_reached.
Qed.

(** C1 at four inputs: a blank text; both quotas exhausted (the daily
    reason wins); the minute quota exhausted; a fresh component with a
    text. *)
Lemma C1_admission_order_witness :
  handleGenerate_begin (typed js:"  ") =
    (setErrorMsg (Some MSG_EMPTY) (typed js:"  "), None)
  /\ snd (handleGenerate_begin
           (setDailyRequests (Int 1500)
              (setMinuteRequests (fun _ => 15) (typed js:"hi")))) = None
  /\ snd (handleGenerate_begin
           (setMinuteRequests (fun _ => 15) (typed js:"hi"))) = None
  /\ snd (handleGenerate_begin (typed js:"hi")) =
       Some (mkCall js:"hi" js:"Kore").
Proof.
  split; [|split; [|split]].
  - apply (C1_admission_order (typed js:"  ")). reflexivity.
  - destruct (C1_admission_order
                (setDailyRequests (Int 1500)
                   (setMinuteRequests (fun _ => 15) (typed js:"hi"))))
      as (_ & H & _).
    rewrite H; [reflexivity | discriminate |].
    exists 1500. split; [reflexivity | lia].
  - destruct (C1_admission_order
                (setMinuteRequests (fun _ => 15) (typed js:"hi")))
      as (_ & _ & H & _).
    rewrite H; [reflexivity | discriminate | | simpl; lia].
    intros (d & Hd & Hle). injection Hd as <-. lia.
  - destruct (C1_admission_order (typed js:"hi")) as (_ & _ & _ & _ & H & _).
    apply (H 0); [discriminate | reflexivity | lia | simpl; lia].
Defined.

(** C9. A call of [handleGenerate] that is denied (blank text, daily limit
    or minute limit) only sets the error message: the generation state, the
    result, both counters, the countdown, the browser with its store and
    the calls in flight are as before; the state is not set to [ERROR] or
    [GENERATING]. *)
Theorem C9_denial_only_sets_error (sys : Sys) :
  JsString.trim (text (app (world sys))) = []
  \/ dailyReached 1500 (app (world sys))
  \/ 15 <= minuteRequests (app (world sys)) ->
  let s := app (world sys) in
  let sys' := step CallGenerate sys in
  let s' := app (world sys') in
  (exists m, s' = setErrorMsg (Some m) s)
  /\ status s' = status s
  /\ generatedAudio s' = generatedAudio s
  /\ minuteRequests s' = minuteRequests s
  /\ dailyRequests s' = dailyRequests s
  /\ secondsUntilReset s' = secondsUntilReset s
  /\ browser (world sys') = browser (world sys)
  /\ inflight sys' = inflight sys.
Proof.
  intros Hden. apply begin_no_call_iff in Hden.
  cbv zeta. simpl step. unfold enterGenerate.
  assert (Hm : exists m, fst (handleGenerate_begin (app (world sys))) =
                         setErrorMsg (Some m) (app (world sys))).
  { unfold handleGenerate_begin in *.
    repeat match goal with
           | H : context [if ?c then _ else _] |- _ => destruct c
           end; simpl in *; try discriminate; eauto. }
  destruct (handleGenerate_begin (app (world sys))) as [s' [c|]];
    [discriminate|].
  simpl in *. destruct Hm as (m & ->). simpl. eauto 10.
Qed.

(** C9 at a component that shows a result and has used up its minute:
    the denial leaves state [SUCCESS] and the result in place. *)
Lemma C9_denial_only_sets_error_witness :
  let sys := mkSys (mkWorld (setStatus SUCCESS
                       (setGeneratedAudio (Some sampleAudio)
                          (setMinuteRequests (fun _ => 15) (typed js:"hi"))))
                      emptyBrowser) [] in
  status (app (world (step CallGenerate sys))) = SUCCESS
  /\ generatedAudio (app (world (step CallGenerate sys))) = Some sampleAudio.
Proof.
  intros sys.
  assert (H : 15 <= minuteRequests (app (world sys))) by (simpl; lia).
  destruct (C9_denial_only_sets_error sys (or_intror (or_intror H)))
    as (_ & Hs & Ha & _).
  split; [exact Hs | exact Ha].
Defined.

(** ** Error classification *)

Section Classification.

Lemma isQuotaError_spec err :
  isQuotaError err = true <-> QuotaExceeded err.
Proof.
  unfold isQuotaError, QuotaExceeded, contains.
  rewrite !orb_true_iff, bool_decide_eq_true.
  destruct (message err) as [m|]; simpl.
  - rewrite !includes_spec. split.
    + intros [[H|H]|H]; eauto.
    + intros [(m' & [= <-] & H)|[H|(m' & [= <-] & H)]]; auto.
  - split.
    + intros [[H|H]|H]; try discriminate; auto.
    + intros [(m' & H & _)|[H|(m' & H & _)]]; try discriminate; auto.
Qed.

Lemma rejected_errorMsg err w :
  errorMsg (app (handleGenerate_rejected err w)) =
  Some (if isQuotaError err then MSG_QUOTA else messageOrDefault err).
Proof. unfold handleGenerate_rejected. destruct (isQuotaError err); reflexivity. Qed.

Lemma rejected_frame err w :
  let w' := handleGenerate_rejected err w in
  status (app w') = ERROR
  /\ dailyRequests (app w') = dailyRequests (app w)
  /\ minuteRequests (app w') = minuteRequests (app w)
  /\ secondsUntilReset (app w') = secondsUntilReset (app w)
  /\ generatedAudio (app w') = generatedAudio (app w)
  /\ localStorage (browser w') = localStorage (browser w).
Proof.
  unfold handleGenerate_rejected. destruct (isQuotaError err); simpl; auto 10.
Qed.

End Classification.

(** C8. A rejected synthesis call is reported as quota-exceeded exactly
    when its message contains "429", its status is 429, or its message
    contains "RESOURCE_EXHAUSTED"; any other error shows its own message,
    or the fallback message when it has none (or an empty one).  In every
    case the state becomes [ERROR] and neither counter nor the store
    changes. *)
Theorem C8_error_classification
    (r : AppState) (nowISO : jsstring) (err : JsError) (w : World) :
  let w' := handleGenerate_settle r nowISO (Rejected err) w in
  (errorMsg (app w') = Some MSG_QUOTA <-> QuotaExceeded err)
  /\ (~ QuotaExceeded err -> forall m, message err = Some m -> m <> [] ->
      errorMsg (app w') = Some m)
  /\ (~ QuotaExceeded err -> message err = None \/ message err = Some [] ->
      errorMsg (app w') = Some MSG_FAILED)
  /\ status (app w') = ERROR
  /\ dailyRequests (app w') = dailyRequests (app w)
  /\ minuteRequests (app w') = minuteRequests (app w)
  /\ localStorage (browser w') = localStorage (browser w).
Proof.
  cbv zeta. simpl handleGenerate_settle.
  rewrite rejected_errorMsg.
  pose proof (isQuotaError_spec err) as Hq.
  pose proof (rejected_frame err w) as (Hs & Hd & Hm & _ & _ & Hl).
  repeat split; auto.
  - destruct (isQuotaError err) eqn:E; [intros _; now apply Hq|].
    intros [= H]. exfalso.
    unfold messageOrDefault in H. unfold isQuotaError in E.
    destruct (message err) as [m|]; [|discriminate H].
    destruct (JsString.truthy m); [|discriminate H].
    subst m. discriminate E.
  - intros H. apply Hq in H. now rewrite H.
  - intros Hn m Hm' Hne. destruct (isQuotaError err); [exfalso; tauto|].
    unfold messageOrDefault. rewrite Hm'. destruct m; [congruence|reflexivity].
  - intros Hn Hmsg. destruct (isQuotaError err); [exfalso; tauto|].
    unfold messageOrDefault. destruct Hmsg as [-> | ->]; reflexivity.
Qed.

(** C8 at a rejection whose message contains "429", at one with status 429
    only, and at one with an ordinary message. *)
Lemma C8_error_classification_witness :
  let w := mkWorld (typed js:"hi") emptyBrowser in
  errorMsg (app (handleGenerate_settle (app w) js:"2025-03-01T10:00:00.000Z"
     (Rejected (mkError (Some js:"got 429 Too Many Requests") None)) w))
    = Some MSG_QUOTA
  /\ errorMsg (app (handleGenerate_settle (app w) js:"2025-03-01T10:00:00.000Z"
     (Rejected (mkError None (Some 429))) w)) = Some MSG_QUOTA
  /\ errorMsg (app (handleGenerate_settle (app w) js:"2025-03-01T10:00:00.000Z"
     (Rejected (mkError (Some js:"Network down") (Some 503))) w))
    = Some js:"Network down".
Proof.
  intros w. split; [|split].
  - apply (proj1 (C8_error_classification (app w) _ _ w)).
    left. eexists. split; [reflexivity|].
    exists js:"got ", js:" Too Many Requests". reflexivity.
  - apply (proj1 (C8_error_classification (app w) _ _ w)).
    right. left. reflexivity.
  - apply (proj1 (proj2 (C8_error_classification (app w) _ _ w)));
      [|reflexivity|discriminate].
    intros H. apply isQuotaError_spec in H. discriminate H.
Defined.

(** ** The minute timer *)

Section Timer.

Lemma tick_reset s :
  secondsUntilReset s <= 1 ->
  tick s = setSecondsUntilReset (fun _ => 60) (setMinuteRequests (fun _ => 0) s).
Proof. intros H. unfold tick. destruct (Z.leb_spec (secondsUntilReset s) 1); [reflexivity|lia]. Qed.

Lemma tick_count s :
  1 < secondsUntilReset s ->
  tick s = setSecondsUntilReset (fun prev => prev - 1) s.
Proof. intros H. unfold tick. destruct (Z.leb_spec (secondsUntilReset s) 1); [lia|reflexivity]. Qed.

(** The countdown stays within 1..60, and the count below any bound it
    already respects. *)
Lemma tick_range s :
  1 <= secondsUntilReset s <= 60 -> 1 <= secondsUntilReset (tick s) <= 60.
Proof.
  intros H. unfold tick.
  destruct (Z.leb_spec (secondsUntilReset s) 1); simpl; lia.
Qed.

Lemma iter_tick_range n s :
  1 <= secondsUntilReset s <= 60 ->
  1 <= secondsUntilReset (Nat.iter n tick s) <= 60.
Proof. intros H. induction n; simpl; [exact H|now apply tick_range]. Qed.

Lemma tick_minute_le s k :
  0 <= k -> minuteRequests s <= k -> minuteRequests (tick s) <= k.
Proof.
  intros Hk H. unfold tick.
  destruct (Z.leb_spec (secondsUntilReset s) 1); simpl; lia.
Qed.

(** [k] ticks into a window, [k] seconds are gone and nothing else moved. *)
Lemma iter_tick_countdown (k : nat) s :
  (Z.of_nat k < secondsUntilReset s) ->
  Nat.iter k tick s = setSecondsUntilReset (fun prev => prev - Z.of_nat k) s.
Proof.
  induction k as [|k IH]; intros H.
  - simpl. destruct s; unfold setSecondsUntilReset; simpl. f_equal. lia.
  - simpl Nat.iter. rewrite IH by lia.
    rewrite tick_count by (simpl; lia).
    destruct s; unfold setSecondsUntilReset; simpl. f_equal. lia.
Qed.

End Timer.

(** C5. A tick takes one second off the countdown, except that a tick
    which would take it below 1 sets the minute count to 0 and the countdown
    to 60 at once; a tick touches nothing else.  From a count of 0 and a
    countdown of 60, the countdown after [k] ticks is [60 - k] for
    [k = 1..59], and the 60th tick gives the starting state back.  A
    countdown within 1..60 stays there, so 0 is never seen. *)
Theorem C5_minute_ticker :
  (forall s, secondsUntilReset s - 1 < 1 ->
     minuteRequests (tick s) = 0 /\ secondsUntilReset (tick s) = 60)
  /\ (forall s, 1 <= secondsUntilReset s - 1 ->
     minuteRequests (tick s) = minuteRequests s
     /\ secondsUntilReset (tick s) = secondsUntilReset s - 1)
  /\ (forall s, exists m c,
     tick s = setSecondsUntilReset (fun _ => c) (setMinuteRequests (fun _ => m) s))
  /\ (forall s, minuteRequests s = 0 -> secondsUntilReset s = 60 ->
     (forall k : nat, (1 <= k <= 59)%nat ->
        secondsUntilReset (Nat.iter k tick s) = 60 - Z.of_nat k
        /\ minuteRequests (Nat.iter k tick s) = 0)
     /\ Nat.iter 60 tick s = s)
  /\ (forall s n, 1 <= secondsUntilReset s <= 60 ->
     1 <= secondsUntilReset (Nat.iter n tick s) <= 60
     /\ secondsUntilReset (Nat.iter n tick s) <> 0).
Proof.
  split; [|split; [|split; [|split]]].
  - intros s H. rewrite tick_reset by lia. auto.
  - intros s H. rewrite tick_count by lia. auto.
  - intros s. unfold tick.
    destruct (secondsUntilReset s <=? 1).
    + exists 0, 60. reflexivity.
    + exists (minuteRequests s), (secondsUntilReset s - 1).
      destruct s; reflexivity.
  - intros s Hm Hs. split.
    + intros k Hk. rewrite iter_tick_countdown by lia. simpl. split; [lia|exact Hm].
    + rewrite Nat.iter_succ, (iter_tick_countdown 59) by lia.
      rewrite tick_reset by (simpl; lia).
      destruct s; unfold setSecondsUntilReset, setMinuteRequests; simpl in *.
      now subst.
  - intros s n H. pose proof (iter_tick_range n s H). split; lia.
Qed.

(** C5 on the component as first rendered. *)
Lemma C5_minute_ticker_witness :
  map (fun k => secondsUntilReset (Nat.iter k tick initialState))
      [1; 2; 58; 59; 60]%nat = [59; 58; 2; 1; 60]
  /\ Nat.iter 60 tick initialState = initialState
  /\ secondsUntilReset (tick (setSecondsUntilReset (fun _ => 1)
        (setMinuteRequests (fun _ => 7) initialState))) = 60
  /\ secondsUntilReset (Nat.iter 200 tick initialState) <> 0.
Proof.
  destruct C5_minute_ticker as (H1 & H2 & _ & H4 & H5).
  destruct (H4 initialState eq_refl eq_refl) as (Hk & H60).
  split; [|split; [|split]].
  - cbn [map]. rewrite H60.
    rewrite (proj1 (Hk 1%nat ltac:(lia))), (proj1 (Hk 2%nat ltac:(lia))),
      (proj1 (Hk 58%nat ltac:(lia))), (proj1 (Hk 59%nat ltac:(lia))).
    reflexivity.
  - exact H60.
  - apply H1. simpl. lia.
  - apply H5. simpl. lia.
Defined.

(** ** Key rotation *)

(** C7, as the claim has it, fails: the result of the last generation
    survives a key rotation. *)
Lemma C7_result_survives_rotation :
  generatedAudio (app usedWorld) = Some sampleAudio
  /\ generatedAudio (app (handleChangeApiKey (Available true) dayD usedWorld))
     <> None.
Proof. split; [reflexivity | discriminate]. Qed.

(** C7 (amended). When the key selection is available and completes, then
    whatever the state before: the generation state is [IDLE], the error is
    cleared, the daily count is 0, the minute count is 0 and the countdown
    60, and the record of the current date is removed from the store, so
    that it reads 0; the result of the last generation is left as it
    was. *)
Theorem C7_rotation_resets (nowISO : jsstring) (w : World) :
  let w' := handleChangeApiKey (Available true) nowISO w in
  status (app w') = IDLE
  /\ errorMsg (app w') = None
  /\ generatedAudio (app w') = generatedAudio (app w)
  /\ dailyRequests (app w') = Int 0
  /\ minuteRequests (app w') = 0
  /\ secondsUntilReset (app w') = 60
  /\ localStorage (browser w') = delete (storageKey nowISO) (localStorage (browser w))
  /\ localStorage (browser w') !! storageKey nowISO = None
  /\ persistedDaily nowISO (browser w') = Int 0.
Proof.
  cbv zeta. simpl. repeat split.
  - apply lookup_delete_eq.
  - unfold persistedDaily, loadDailyUsage. simpl.
    now rewrite lookup_delete_eq.
Qed.

(** C10. Without the key-selection facility, [handleChangeApiKey] resets
    nothing: the whole component state, the store and the calls in flight
    are unchanged, and one notification is shown. *)
Theorem C10_rotation_unavailable (nowISO : jsstring) (sys : Sys) :
  let sys' := step (ChangeApiKey Unavailable nowISO) sys in
  app (world sys') = app (world sys)
  /\ localStorage (browser (world sys')) = localStorage (browser (world sys))
  /\ console (browser (world sys')) = console (browser (world sys))
  /\ inflight sys' = inflight sys
  /\ alerts (browser (world sys')) =
     alerts (browser (world sys)) ++ [MSG_KEY_UNAVAILABLE].
Proof. cbv zeta. simpl. auto. Qed.

(** ** Re-entrancy *)

(** C3, as the claim has it, fails: [handleGenerate] entered while a
    generation is in flight checks admission again and calls
    [generateSpeech] a second time. *)
Lemma C3_handler_reenters_while_generating :
  status (app (world generatingSys)) = GENERATING
  /\ length (inflight generatingSys) = 1%nat
  /\ snd (handleGenerate_begin (app (world generatingSys))) =
       Some (mkCall js:"hi" js:"Kore")
  /\ length (inflight (step CallGenerate generatingSys)) = 2%nat
  /\ step CallGenerate generatingSys <> generatingSys.
Proof.
  repeat split. intros H. apply (f_equal (fun x => length (inflight x))) in H.
  discriminate H.
Qed.

(** C3 (amended). While the state is [GENERATING] the generate button is
    disabled, and a press of it does nothing at all: no admission check, no
    synthesis call, no change of state, counters or store.
    [handleGenerate] itself does not look at the state: entered while
    [GENERATING] it decides admission as in any other state and, when that
    allows, calls [generateSpeech] again. *)
Theorem C3_button_guards_reentrancy (sys : Sys) :
  status (app (world sys)) = GENERATING ->
  generateDisabled (app (world sys)) = true
  /\ step PressGenerate sys = sys
  /\ (forall st,
        snd (handleGenerate_begin (setStatus st (app (world sys)))) =
        snd (handleGenerate_begin (app (world sys))))
  /\ (JsString.trim (text (app (world sys))) <> [] ->
      ~ dailyReached 1500 (app (world sys)) ->
      minuteRequests (app (world sys)) < 15 ->
      inflight (step CallGenerate sys) = inflight sys ++ [app (world sys)]).
Proof.
  intros Hg.
  assert (Hdis : generateDisabled (app (world sys)) = true).
  { unfold generateDisabled. rewrite Hg. reflexivity. }
  split; [exact Hdis|]. split; [simpl; now rewrite Hdis|]. split.
  - intros st. unfold handleGenerate_begin. simpl.
    repeat match goal with |- context [if ?c then _ else _] => destruct c end;
      reflexivity.
  - intros Ht Hd Hm. simpl. unfold enterGenerate.
    now rewrite begin_allowed.
Qed.

(** C3 at a component with one generation in flight. *)
Lemma C3_button_guards_reentrancy_witness :
  step PressGenerate generatingSys = generatingSys
  /\ inflight (step CallGenerate generatingSys) =
     inflight generatingSys ++ [app (world generatingSys)].
Proof.
  destruct (C3_button_guards_reentrancy generatingSys eq_refl)
    as (_ & Hp & _ & Hc).
  split; [exact Hp|]. apply Hc.
  - vm_compute. discriminate.
  - intros (d & Hd & Hle). vm_compute in Hd. injection Hd as <-. lia.
  - vm_compute. reflexivity.
Defined.

(** ** The minute count *)

Section MinuteBound.

Lemma incrementUsage_minute r nowISO w :
  minuteRequests (app (incrementUsage r nowISO w)) = minuteRequests (app w) + 1.
Proof. reflexivity. Qed.

Lemma settle_minute r nowISO o w :
  minuteRequests (app (handleGenerate_settle r nowISO o w)) =
  match o with
  | Fulfilled _ => minuteRequests (app w) + 1
  | Rejected _ => minuteRequests (app w)
  end.
Proof.
  destruct o as [a|err]; simpl; [reflexivity|].
  apply (rejected_frame err w).
Qed.

Lemma changeKey_minute k nowISO w :
  minuteRequests (app (handleChangeApiKey k nowISO w)) = 0
  \/ minuteRequests (app (handleChangeApiKey k nowISO w)) = minuteRequests (app w).
Proof. destruct k as [|[|]]; simpl; auto. Qed.

Lemma handleTextChange_minute v s :
  minuteRequests (handleTextChange v s) = minuteRequests s.
Proof.
  unfold handleTextChange. destruct (errorMsg s) as [m|]; [|reflexivity].
  destruct (JsString.truthy m); reflexivity.
Qed.

Lemma enterGenerate_inv sys :
  inflight sys = [] -> minuteInv sys -> minuteInv (enterGenerate sys).
Proof.
  intros Hnil [Hm Hl]. unfold enterGenerate, minuteInv.
  destruct (handleGenerate_begin (app (world sys))) as [s' c] eqn:E.
  unfold handleGenerate_begin in E. rewrite Hnil in *. simpl in Hm.
  repeat match type of E with
         | context [if ?c then _ else _] => destruct c eqn:?
         end; injection E as <- <-; simpl; try lia.
  unfold MINUTE_REQUEST_LIMIT in *.
  destruct (Z.geb_spec (minuteRequests (app (world sys))) 15); [discriminate|].
  lia.
Qed.

Lemma step_inv e sys :
  match e with
  | PressGenerate | CallGenerate => inflight sys = []
  | _ => True
  end ->
  minuteInv sys -> minuteInv (step e sys).
Proof.
  intros He Hinv. destruct e; simpl.
  - destruct Hinv as [Hm Hl]. split; simpl; [|exact Hl].
    pose proof (tick_minute_le (app (world sys))
                  (Z.max 0 (minuteRequests (app (world sys))))) as Ht.
    assert (minuteRequests (tick (app (world sys)))
            <= Z.max 0 (minuteRequests (app (world sys)))) by (apply Ht; lia).
    lia.
  - destruct Hinv as [Hm Hl]. split; simpl; [|exact Hl].
    now rewrite handleTextChange_minute.
  - exact Hinv.
  - destruct (generateDisabled (app (world sys))); [exact Hinv|].
    now apply enterGenerate_inv.
  - now apply enterGenerate_inv.
  - destruct (inflight sys !! i) as [r|] eqn:Hi; [|exact Hinv].
    destruct Hinv as [Hm Hl]. unfold minuteInv. simpl.
    rewrite settle_minute, length_delete by eauto.
    assert (0 < length (inflight sys))%nat
      by (apply lookup_lt_Some in Hi; lia).
    destruct o; lia.
  - destruct Hinv as [Hm Hl]. split; simpl; [|exact Hl].
    destruct (changeKey_minute aistudio nowISO (world sys)) as [-> | ->]; lia.
Qed.

Lemma run_inv evs : forall sys,
  serial evs sys = true -> minuteInv sys -> minuteInv (run evs sys).
Proof.
  induction evs as [|e evs IH]; intros sys Hs Hinv; [exact Hinv|].
  simpl in Hs. apply andb_true_iff in Hs as [He Hs].
  change (run (e :: evs) sys) with (run evs (step e sys)).
  apply IH; [exact Hs|]. apply step_inv; [|exact Hinv].
  destruct e; try exact I; now apply bool_decide_eq_true in He.
Qed.

End MinuteBound.

(** C4, as the claim has it, fails: [incrementUsage] has no ceiling, it
    takes a minute count of 15 to 16; and generations entered on top of
    each other drive the count of a fresh component to 16. *)
Lemma C4_increment_passes_limit :
  let w := mkWorld (setMinuteRequests (fun _ => 15) (typed js:"hi")) emptyBrowser in
  minuteRequests (app (incrementUsage (app w) dayD w))
    <> Z.min (minuteRequests (app w) + 1) 15
  /\ minuteRequests (app (incrementUsage (app w) dayD w)) = 16
  /\ minuteRequests (app (world (run overlappingRun (mount dayD emptyBrowser))))
     = 16.
Proof. repeat split. discriminate. Qed.

(** C4 (amended). [incrementUsage] adds exactly 1 to the minute count, with
    no ceiling.  The count stays at most 15 along every serial run, that
    is every sequence of ticks, edits, key rotations, generate requests and
    settlements in which no generation is requested while another is in
    flight, from a state with a count of at most 15 and nothing in
    flight. *)
Theorem C4_minute_bound_serial (evs : list Event) (sys : Sys) :
  serial evs sys = true ->
  inflight sys = [] ->
  minuteRequests (app (world sys)) <= 15 ->
  minuteRequests (app (world (run evs sys))) <= 15
  /\ (forall r nowISO w,
        minuteRequests (app (incrementUsage r nowISO w)) =
        minuteRequests (app w) + 1).
Proof.
  intros Hs Hnil Hm. split; [|apply incrementUsage_minute].
  assert (Hinv : minuteInv sys).
  { unfold minuteInv. rewrite Hnil. simpl. split; lia. }
  destruct (run_inv evs sys Hs Hinv) as [H _]. lia.
Qed.

(** Fifteen generations in a row fill the minute, the sixteenth request is
    denied, and the count is 15. *)
Lemma C4_minute_bound_serial_witness :
  let evs := [TextChange js:"hi"]
             ++ concat (replicate 15 [PressGenerate; Tick;
                                      Settle 0 dayD (Fulfilled sampleAudio)])
             ++ [CallGenerate] in
  minuteRequests (app (world (run evs (mount dayD emptyBrowser)))) <= 15.
Proof.
  intros evs.
  apply (C4_minute_bound_serial evs (mount dayD emptyBrowser)).
  - vm_compute. reflexivity.
  - reflexivity.
  - vm_compute. discriminate.
Defined.

(** ** The daily count *)

Section DailyCount.








Lemma handleTextChange_daily v s :
  dailyRequests (handleTextChange v s) = dailyRequests s.
Proof.
  unfold handleTextChange. destruct (errorMsg s) as [m|]; [|reflexivity].
  destruct (JsString.truthy m); reflexivity.
Qed.





End DailyCount.

(** C2 at its failing input.  A session opened on day D has generated once;
    after midnight it generates again.  That second generation is fulfilled
    with state [SUCCESS], the result stored and the minute count raised by
    1, but the persisted daily count under the key of the new day goes from
    0 to 2: [incrementUsage] writes the in-memory count, which still holds
    the generation of the day before. *)
Theorem C2_persisted_count_jumps_after_midnight :
  persistedDaily dayD1 (browser (world beforeMidnight)) = Int 0
  /\ persistedDaily dayD1 (browser (world afterMidnight)) = Int 2
  /\ persistedDaily dayD1 (browser (world afterMidnight))
     <> JsNumber.succ (persistedDaily dayD1 (browser (world beforeMidnight)))
  /\ minuteRequests (app (world afterMidnight)) =
     minuteRequests (app (world beforeMidnight)) + 1
  /\ status (app (world afterMidnight)) = SUCCESS
  /\ generatedAudio (app (world afterMidnight)) = Some sampleAudio.
Proof. repeat split; vm_compute; (reflexivity || discriminate). Qed.

(** C6 at its failing input.  In the session above, on day D+1 and before
    any new generation, the store has no record for D+1 (it reads 0) but
    the component still counts 1; the generation of D+1 is then recorded as
    2 under the key of D+1, the record of D being kept.  A session that
    used up its 1500 requests on day D is still denied on D+1 with the
    daily-limit message, though the store reads 0 for D+1. *)
Theorem C6_daily_count_survives_midnight :
  today dayD <> today dayD1
  /\ persistedDaily dayD1 (browser (world beforeMidnight)) = Int 0
  /\ dailyRequests (app (world (step Tick beforeMidnight))) = Int 1
  /\ localStorage (browser (world afterMidnight)) !! storageKey dayD1
     = Some js:"2"
  /\ localStorage (browser (world afterMidnight)) !! storageKey dayD
     = Some js:"1"
  /\ dailyRequests (app (world afterMidnight)) = Int 2
  /\ persistedDaily dayD1 (browser (world exhaustedNextDay)) = Int 0
  /\ errorMsg (app (world exhaustedNextDay)) = Some MSG_DAILY
  /\ inflight exhaustedNextDay = [].
Proof. split; [discriminate|]. repeat split; vm_compute; reflexivity. Qed.

(** * Further properties of the component *)

Section Runs.

(** A property kept by every step is kept by every run. *)
Lemma run_preserves (P : Sys -> Prop) (Q : Event -> Prop) :
  (forall e sys, Q e -> P sys -> P (step e sys)) ->
  forall evs sys, Forall Q evs -> P sys -> P (run evs sys).
Proof.
  intros Hstep evs. induction evs as [|e evs IH]; intros sys Hq Hp; [exact Hp|].
  inversion Hq as [|? ? He Hq']; subst.
  change (run (e :: evs) sys) with (run evs (step e sys)). auto.
Qed.

Lemma Forall_True_events (evs : list Event) : Forall (fun _ => True) evs.
Proof. induction evs; constructor; auto. Qed.

Lemma begin_frame s :
  let s' := fst (handleGenerate_begin s) in
  text s' = text s /\ selectedVoice s' = selectedVoice s
  /\ dailyRequests s' = dailyRequests s
  /\ minuteRequests s' = minuteRequests s
  /\ secondsUntilReset s' = secondsUntilReset s.
Proof.
  unfold handleGenerate_begin.
  repeat match goal with |- context [if ?c then _ else _] => destruct c end;
    simpl; auto.
Qed.

Lemma handleTextChange_frame v s :
  let s' := handleTextChange v s in
  text s' = v /\ selectedVoice s' = selectedVoice s /\ status s' = status s
  /\ generatedAudio s' = generatedAudio s
  /\ dailyRequests s' = dailyRequests s
  /\ minuteRequests s' = minuteRequests s
  /\ secondsUntilReset s' = secondsUntilReset s.
Proof.
  unfold handleTextChange. destruct (errorMsg s) as [m|]; [|simpl; auto 10].
  destruct (JsString.truthy m); simpl; auto 10.
Qed.

Lemma enterGenerate_cases sys :
  (snd (handleGenerate_begin (app (world sys))) = None
   /\ enterGenerate sys =
      mkSys (mkWorld (fst (handleGenerate_begin (app (world sys))))
               (browser (world sys))) (inflight sys))
  \/ (snd (handleGenerate_begin (app (world sys))) <> None
      /\ enterGenerate sys =
         mkSys (mkWorld (setGeneratedAudio None
                           (setStatus GENERATING
                              (setErrorMsg None (app (world sys)))))
                  (browser (world sys)))
           (inflight sys ++ [app (world sys)])).
Proof.
  unfold enterGenerate, handleGenerate_begin.
  repeat match goal with |- context [if ?c then _ else _] => destruct c end;
    simpl; auto.
Qed.

End Runs.

(** ** Reloading the page *)



(** ** What every run keeps *)

Section RunInvariants.

Lemma step_countdown e sys :
  1 <= secondsUntilReset (app (world sys)) <= 60
  /\ 0 <= minuteRequests (app (world sys)) ->
  1 <= secondsUntilReset (app (world (step e sys))) <= 60
  /\ 0 <= minuteRequests (app (world (step e sys))).
Proof.
  intros [Hs Hm]. destruct e; simpl.
  - split; [now apply tick_range|].
    unfold tick. destruct (_ <=? _); simpl; lia.
  - pose proof (handleTextChange_frame value (app (world sys)))
      as (_ & _ & _ & _ & _ & -> & ->). auto.
  - auto.
  - destruct (generateDisabled _); [auto|].
    pose proof (begin_frame (app (world sys))) as (_ & _ & _ & Hm' & Hs').
    destruct (enterGenerate_cases sys) as [[_ ->] | [_ ->]]; simpl; auto.
    now rewrite Hm', Hs'.
  - pose proof (begin_frame (app (world sys))) as (_ & _ & _ & Hm' & Hs').
    destruct (enterGenerate_cases sys) as [[_ ->] | [_ ->]]; simpl; auto.
    now rewrite Hm', Hs'.
  - destruct (inflight sys !! i) as [r|]; [|auto]. simpl.
    rewrite settle_minute. destruct o as [a|err]; simpl.
    + split; [exact Hs | lia].
    + pose proof (rejected_frame err (world sys)) as (_ & _ & _ & -> & _).
      auto.
  - destruct aistudio as [|[|]]; simpl; auto. lia.
Qed.

Lemma step_status e sys :
  ((status (app (world sys)) = GENERATING ->
    inflight sys <> [] /\ generatedAudio (app (world sys)) = None)
   /\ (status (app (world sys)) = SUCCESS ->
       generatedAudio (app (world sys)) <> None)
   /\ errorMsg (app (world sys)) <> Some []) ->
  ((status (app (world (step e sys))) = GENERATING ->
    inflight (step e sys) <> []
    /\ generatedAudio (app (world (step e sys))) = None)
   /\ (status (app (world (step e sys))) = SUCCESS ->
       generatedAudio (app (world (step e sys))) <> None)
   /\ errorMsg (app (world (step e sys))) <> Some []).
Proof.
  intros (Hg & Hsu & He).
  assert (Henter : let sys' := enterGenerate sys in
    (status (app (world sys')) = GENERATING ->
     inflight sys' <> [] /\ generatedAudio (app (world sys')) = None)
    /\ (status (app (world sys')) = SUCCESS ->
        generatedAudio (app (world sys')) <> None)
    /\ errorMsg (app (world sys')) <> Some []).
  { cbv zeta. destruct (enterGenerate_cases sys) as [[Hn ->] | [_ ->]]; simpl.
    - unfold handleGenerate_begin in *.
      repeat match goal with
             | |- context [if ?c then _ else _] => destruct c
             end; simpl in *; try discriminate;
        (split; [exact Hg | split; [exact Hsu | discriminate]]).
    - split; [|split; discriminate]. intros _. split; [|reflexivity].
      destruct (inflight sys); discriminate. }
  destruct e; simpl.
  - unfold tick. destruct (_ <=? _); simpl; auto.
  - pose proof (handleTextChange_frame value (app (world sys)))
      as (_ & _ & -> & -> & _).
    split; [exact Hg | split; [exact Hsu|]].
    unfold handleTextChange.
    destruct (errorMsg (app (world sys))) as [m|] eqn:E; simpl; [|congruence].
    destruct (JsString.truthy m); simpl; congruence.
  - auto.
  - destruct (generateDisabled _); [auto | exact Henter].
  - exact Henter.
  - destruct (inflight sys !! i) as [r|]; [|auto]. simpl.
    destruct o as [a|err]; simpl.
    + split; [discriminate | split; [discriminate | exact He]].
    + pose proof (rejected_frame err (world sys)) as (Hst & _).
      rewrite Hst, rejected_errorMsg.
      split; [discriminate | split; [discriminate|]].
      destruct (isQuotaError err); [discriminate|].
      unfold messageOrDefault. destruct (message err) as [[|c m]|];
        discriminate.
  - destruct aistudio as [|[|]]; simpl; auto.
    split; [discriminate | split; discriminate].
Qed.

Lemma step_daily_bound e sys :
  withinDaily (dailyRequests (app (world sys)))
  /\ Forall (fun r => JsNumber.ge (dailyRequests r) (Int DAILY_REQUEST_LIMIT) = false)
       (inflight sys) ->
  withinDaily (dailyRequests (app (world (step e sys))))
  /\ Forall (fun r => JsNumber.ge (dailyRequests r) (Int DAILY_REQUEST_LIMIT) = false)
       (inflight (step e sys)).
Proof.
  intros [Hd Hf].
  assert (Henter : let sys' := enterGenerate sys in
    withinDaily (dailyRequests (app (world sys')))
    /\ Forall (fun r => JsNumber.ge (dailyRequests r) (Int DAILY_REQUEST_LIMIT) = false)
         (inflight sys')).
  { cbv zeta. pose proof (begin_frame (app (world sys))) as (_ & _ & Hd' & _).
    destruct (enterGenerate_cases sys) as [[_ ->] | [Hc ->]]; simpl.
    - now rewrite Hd'.
    - split; [exact Hd|]. apply Forall_app. split; [exact Hf|].
      constructor; [|constructor].
      unfold handleGenerate_begin in Hc.
      repeat match type of Hc with
             | context [if ?c then _ else _] => destruct c eqn:?
             end; simpl in Hc; congruence. }
  destruct e; simpl.
  - unfold tick. destruct (_ <=? _); simpl; auto.
  - now rewrite handleTextChange_daily.
  - auto.
  - destruct (generateDisabled _); [auto | exact Henter].
  - exact Henter.
  - destruct (inflight sys !! i) as [r|] eqn:Hi; [|auto]. simpl.
    split.
    + destruct o as [a|err]; simpl.
      * rewrite Forall_lookup in Hf. specialize (Hf i r Hi). simpl in Hf.
        intros d. destruct (dailyRequests r) as [|x]; simpl; [discriminate|].
        intros [= <-]. simpl in Hf. unfold DAILY_REQUEST_LIMIT in *.
        destruct (Z.geb_spec x 1500); [discriminate | lia].
      * pose proof (rejected_frame err (world sys)) as (_ & -> & _). exact Hd.
    + apply (Forall_delete _ _ _ Hf).
  - destruct aistudio as [|[|]]; simpl; auto.
    split; [|exact Hf]. intros d [= <-]. unfold DAILY_REQUEST_LIMIT. lia.
Qed.

End RunInvariants.

(** X2. In every run of the mounted component, whatever its events, the
    countdown stays within 1..60 and the minute count is never negative. *)
Theorem X2_countdown_in_range (nowISO : jsstring) (b : Browser) (evs : list Event) :
  let s := app (world (run evs (mount nowISO b))) in
  1 <= secondsUntilReset s <= 60 /\ 0 <= minuteRequests s.
Proof.
  cbv zeta.
  apply (run_preserves
           (fun sys => 1 <= secondsUntilReset (app (world sys)) <= 60
                       /\ 0 <= minuteRequests (app (world sys)))
           (fun _ => True)).
  - intros e sys _. apply step_countdown.
  - apply Forall_True_events.
  - unfold mount, loadDailyUsage. simpl.
    repeat (destruct (_ !! _)); repeat (destruct (JsString.truthy _));
      simpl; lia.
Qed.

(** X3. In every run of the mounted component: while the state is
    [GENERATING] a call is in flight and no result is held; while it is
    [SUCCESS] a result is held; and the error message is never the empty
    string. *)
Theorem X3_state_matches_result (nowISO : jsstring) (b : Browser) (evs : list Event) :
  let sys := run evs (mount nowISO b) in
  (status (app (world sys)) = GENERATING ->
     inflight sys <> [] /\ generatedAudio (app (world sys)) = None)
  /\ (status (app (world sys)) = SUCCESS ->
     generatedAudio (app (world sys)) <> None)
  /\ errorMsg (app (world sys)) <> Some [].
Proof.
  cbv zeta.
  apply (run_preserves
           (fun sys =>
              (status (app (world sys)) = GENERATING ->
               inflight sys <> [] /\ generatedAudio (app (world sys)) = None)
              /\ (status (app (world sys)) = SUCCESS ->
                  generatedAudio (app (world sys)) <> None)
              /\ errorMsg (app (world sys)) <> Some [])
           (fun _ => True)).
  - intros e sys _. apply step_status.
  - apply Forall_True_events.
  - unfold mount, loadDailyUsage. simpl.
    repeat (destruct (_ !! _)); repeat (destruct (JsString.truthy _));
      simpl; (split; [discriminate | split; discriminate]).
Qed.

(** X3 on a run with two generations on top of each other, the first
    fulfilled: the state is [SUCCESS] and the result is there. *)
Lemma X3_state_matches_result_witness :
  generatedAudio (app (world (run
    [TextChange js:"hi"; CallGenerate; CallGenerate;
     Settle 0 dayD (Fulfilled sampleAudio)] (mount dayD emptyBrowser))))
  <> None.
Proof.
  apply (X3_state_matches_result dayD emptyBrowser
           [TextChange js:"hi"; CallGenerate; CallGenerate;
            Settle 0 dayD (Fulfilled sampleAudio)]).
  vm_compute. reflexivity.
Defined.

(** X4. When the record the component was mounted with is within the daily
    limit (or is not a number), the daily count shown stays within the limit
    in every run, also with generations on top of each other: a count that
    is a number is at most 1500, so the remaining credit is never
    negative. *)
Theorem X4_daily_count_within_limit
    (nowISO : jsstring) (b : Browser) (evs : list Event) :
  withinDaily (persistedDaily nowISO b) ->
  let s := app (world (run evs (mount nowISO b))) in
  (forall d, dailyRequests s = Int d -> d <= 1500)
  /\ (forall k, dailyRemaining s = Int k -> 0 <= k).
Proof.
  intros H0. cbv zeta.
  assert (H : withinDaily
                (dailyRequests (app (world (run evs (mount nowISO b)))))).
  { apply (run_preserves
             (fun sys =>
                withinDaily (dailyRequests (app (world sys)))
                /\ Forall (fun r => JsNumber.ge (dailyRequests r)
                                      (Int DAILY_REQUEST_LIMIT) = false)
                     (inflight sys))
             (fun _ => True)).
    - intros e sys _. apply step_daily_bound.
    - apply Forall_True_events.
    - split; [exact H0 | constructor]. }
  split; [exact H|].
  intros k. unfold dailyRemaining.
  destruct (dailyRequests _) as [|d] eqn:E; [discriminate|].
  intros [= <-]. specialize (H d eq_refl). lia.
Qed.

(** X4 on sixteen generations on top of each other, started one short of
    the limit: the count ends at 1500, not beyond. *)
Lemma X4_daily_count_within_limit_witness :
  exists d,
    dailyRequests (app (world (run overlappingRun
       (mount dayD (mkBrowser {[ storageKey dayD := js:"1499" ]} [] [])))))
    = Int d /\ d <= 1500.
Proof.
  exists 1500. split; [vm_compute; reflexivity|].
  apply (X4_daily_count_within_limit dayD
           (mkBrowser {[ storageKey dayD := js:"1499" ]} [] [])
           overlappingRun).
  - intros d Hd. vm_compute in Hd. injection Hd as <-.
    unfold DAILY_REQUEST_LIMIT. lia.
  - vm_compute. reflexivity.
Defined.

(** ** The wait announced by the speed-limit message *)

Section Wait.

Lemma iter_tick_reset s :
  1 <= secondsUntilReset s ->
  Nat.iter (Z.to_nat (secondsUntilReset s)) tick s =
  setSecondsUntilReset (fun _ => 60) (setMinuteRequests (fun _ => 0) s).
Proof.
  intros H.
  replace (Z.to_nat (secondsUntilReset s))
    with (S (Z.to_nat (secondsUntilReset s - 1))) by lia.
  rewrite Nat.iter_succ, iter_tick_countdown by lia.
  rewrite tick_reset by (simpl; lia).
  destruct s; reflexivity.
Qed.

End Wait.

(** X5. The wait announced by the speed-limit message is exact.  A request
    denied for the minute limit is told to wait [secondsUntilReset]
    seconds; after fewer ticks than that the same request is still denied
    for the minute limit, with the wait that is left; after exactly that
    many ticks the minute count is 0, the countdown 60, and the request is
    allowed. *)
Theorem X5_announced_wait_is_exact (s : AppState) :
  JsString.trim (text s) <> [] ->
  ~ dailyReached 1500 s ->
  15 <= minuteRequests s ->
  1 <= secondsUntilReset s ->
  let n := Z.to_nat (secondsUntilReset s) in
  errorMsg (fst (handleGenerate_begin s)) =
    Some (MSG_MINUTE (secondsUntilReset s))
  /\ (forall k : nat, (k < n)%nat ->
      handleGenerate_begin (Nat.iter k tick s) =
        (setErrorMsg (Some (MSG_MINUTE (secondsUntilReset s - Z.of_nat k)))
           (Nat.iter k tick s), None))
  /\ minuteRequests (Nat.iter n tick s) = 0
  /\ secondsUntilReset (Nat.iter n tick s) = 60
  /\ snd (handleGenerate_begin (Nat.iter n tick s)) =
     Some (mkCall (text s) (selectedVoice s)).
Proof.
  intros Ht Hd Hm Hs. cbv zeta.
  split; [now rewrite begin_minute|].
  split.
  - intros k Hk. rewrite iter_tick_countdown by lia.
    rewrite begin_minute; [reflexivity | exact Ht | exact Hd | exact Hm].
  - rewrite iter_tick_reset by exact Hs. repeat split.
    rewrite begin_allowed; [reflexivity | exact Ht | exact Hd | simpl; lia].
Qed.

(** X5 with the minute used up and 42 seconds to go. *)
Lemma X5_announced_wait_is_exact_witness :
  let s := mkApp js:"Kore" js:"hi" [] IDLE None None (Int 3) 15 42 in
  snd (handleGenerate_begin (Nat.iter 41 tick s)) = None
  /\ snd (handleGenerate_begin (Nat.iter 42 tick s)) =
     Some (mkCall js:"hi" js:"Kore").
Proof.
  intros s.
  assert (Ht : JsString.trim (text s) <> []) by (vm_compute; discriminate).
  assert (Hd : ~ dailyReached 1500 s).
  { intros (d & Hd & Hle). injection Hd as <-. lia. }
  assert (Hm : 15 <= minuteRequests s) by (simpl; lia).
  assert (Hs : 1 <= secondsUntilReset s) by (simpl; lia).
  destruct (X5_announced_wait_is_exact s Ht Hd Hm Hs) as (_ & Hk & _ & _ & Hn).
  split.
  - rewrite (Hk 41%nat); [reflexivity | simpl; lia].
  - exact Hn.
Defined.

(** ** The generate button and the handler *)

Section Button.

Lemma generateDisabled_spec s :
  generateDisabled s = true <->
  status s = GENERATING \/ JsString.trim (text s) = []
  \/ 15 <= minuteRequests s.
Proof.
  unfold generateDisabled, isMinuteFull, minuteRemaining, MINUTE_REQUEST_LIMIT.
  rewrite !orb_true_iff, bool_decide_eq_true, negb_true_iff,
    truthy_trim_false, Z.leb_le.
  assert (15 - minuteRequests s <= 0 <-> 15 <= minuteRequests s) by lia.
  tauto.
Qed.

End Button.

(** X6. The button is disabled exactly when the state is [GENERATING], the
    trimmed text is empty, or the minute count has reached 15.  So a press
    that gets through is never denied for an empty text or for the minute
    limit: it is denied with the daily-limit message when the daily count
    has reached 1500, and calls the synthesis otherwise. *)
Theorem X6_enabled_press_outcomes (s : AppState) :
  (generateDisabled s = true <->
     status s = GENERATING \/ JsString.trim (text s) = []
     \/ 15 <= minuteRequests s)
  /\ (generateDisabled s = false -> dailyReached 1500 s ->
      handleGenerate_begin s = (setErrorMsg (Some MSG_DAILY) s, None))
  /\ (generateDisabled s = false -> ~ dailyReached 1500 s ->
      handleGenerate_begin s =
        (setGeneratedAudio None (setStatus GENERATING (setErrorMsg None s)),
         Some (mkCall (text s) (selectedVoice s)))).
Proof.
  split; [apply generateDisabled_spec|].
  assert (H : generateDisabled s = false ->
              JsString.trim (text s) <> [] /\ minuteRequests s < 15).
  { intros Hf. split.
    - intros Ht. assert (generateDisabled s = true)
        by (apply generateDisabled_spec; auto). congruence.
    - destruct (Z_lt_le_dec (minuteRequests s) 15) as [Hm|Hm]; [exact Hm|].
      assert (generateDisabled s = true)
        by (apply generateDisabled_spec; auto). congruence. }
  split; intros Hf Hd; destruct (H Hf) as [Ht Hm].
  - now apply begin_daily.
  - now apply begin_allowed.
Qed.

(** X6 with the daily quota used up and with a fresh component. *)
Lemma X6_enabled_press_outcomes_witness :
  errorMsg (fst (handleGenerate_begin
                   (setDailyRequests (Int 1500) (typed js:"hi"))))
    = Some MSG_DAILY
  /\ snd (handleGenerate_begin (typed js:"hi")) =
     Some (mkCall js:"hi" js:"Kore").
Proof.
  split.
  - destruct (X6_enabled_press_outcomes
                (setDailyRequests (Int 1500) (typed js:"hi"))) as (_ & H & _).
    rewrite H; [reflexivity | reflexivity |].
    exists 1500. split; [reflexivity | lia].
  - destruct (X6_enabled_press_outcomes (typed js:"hi")) as (_ & _ & H).
    rewrite H; [reflexivity | reflexivity |].
    intros (d & Hd & Hle). injection Hd as <-. lia.
Defined.

(** X7. A completed key selection unblocks the component at once: whatever
    the counters and the state were, the button is enabled and the next
    request is allowed as soon as the text is not blank. *)
Theorem X7_rotation_unblocks (nowISO : jsstring) (w : World) :
  JsString.trim (text (app w)) <> [] ->
  let s' := app (handleChangeApiKey (Available true) nowISO w) in
  generateDisabled s' = false
  /\ snd (handleGenerate_begin s') =
     Some (mkCall (text (app w)) (selectedVoice (app w))).
Proof.
  intros Ht. cbv zeta.
  set (s' := app (handleChangeApiKey (Available true) nowISO w)).
  assert (Ht' : JsString.trim (text s') <> []) by exact Ht.
  assert (Hd : ~ dailyReached 1500 s').
  { intros (d & Hd & Hle). injection Hd as <-. lia. }
  split.
  - destruct (generateDisabled s') eqn:E; [|reflexivity].
    apply generateDisabled_spec in E as [E|[E|E]];
      [discriminate E | contradiction | simpl in E; lia].
  - rewrite begin_allowed; [reflexivity | exact Ht' | exact Hd | simpl; lia].
Qed.

(** X7 on a component that had used up both quotas while generating. *)
Lemma X7_rotation_unblocks_witness :
  let w := mkWorld
             (mkApp js:"Kore" js:"hi" [] GENERATING None None (Int 1500) 15 7)
             (mkBrowser {[ storageKey dayD := js:"1500" ]} [] []) in
  generateDisabled (app w) = true
  /\ generateDisabled (app (handleChangeApiKey (Available true) dayD w)) = false.
Proof.
  intros w. split; [reflexivity|].
  apply (X7_rotation_unblocks dayD w). vm_compute. discriminate.
Defined.

(** ** Denials, edits and the error banner *)

Section Banner.

Lemma includes_head_in s c p :
  JsString.includes s (c :: p) = true -> In c s.
Proof.
  intros H. apply includes_spec in H as (a & b & ->).
  apply in_or_app. right. now left.
Qed.

Lemma MSG_MINUTE_no_link z :
  JsString.includes (MSG_MINUTE z) js:"Quota exceeded" = false.
Proof.
  destruct (JsString.includes _ _) eqn:Hi; [|reflexivity]. exfalso.
  apply (includes_head_in _ 81%N) in Hi.
  unfold MSG_MINUTE in Hi.
  apply in_app_or in Hi as [Hin|Hin];
    [|apply in_app_or in Hin as [Hin|Hin]].
  - revert Hin. vm_compute. intuition discriminate.
  - unfold JsNumber.ZtoString in Hin.
    assert (Hu : forall d, ~ In 81%N (JsString.lit (NilEmpty.string_of_uint d))).
    { induction d; simpl; intros Hd; [exact Hd | ..];
        (destruct Hd as [?|?]; [discriminate | auto]). }
    destruct (Z.to_int z) as [d|d]; unfold NilEmpty.string_of_int in Hin.
    + exact (Hu d Hin).
    + destruct Hin as [?|Hin]; [discriminate | exact (Hu d Hin)].
  - revert Hin. vm_compute. intuition discriminate.
Qed.

Lemma begin_denied_shape s :
  snd (handleGenerate_begin s) = None ->
  exists c m, fst (handleGenerate_begin s) = setErrorMsg (Some (c :: m)) s
              /\ JsString.includes (c :: m) js:"Quota exceeded" = false.
Proof.
  intros H. apply begin_no_call_iff in H.
  destruct (decide (JsString.trim (text s) = [])) as [Ht|Ht].
  { rewrite begin_empty by exact Ht. eexists _, _. split; reflexivity. }
  destruct (JsNumber.ge (dailyRequests s) (Int 1500)) eqn:E.
  { apply ge_spec in E. rewrite begin_daily by assumption.
    eexists _, _. split; reflexivity. }
  assert (Hd : ~ dailyReached 1500 s).
  { intros Hr. apply ge_spec in Hr. congruence. }
  destruct H as [H|[H|H]]; [contradiction | contradiction |].
  rewrite begin_minute by assumption.
  pose proof (MSG_MINUTE_no_link (secondsUntilReset s)) as Hn.
  destruct (MSG_MINUTE (secondsUntilReset s)) as [|c m] eqn:Em;
    [discriminate Em|].
  exists c, m. split; [reflexivity | exact Hn].
Qed.

Lemma rejected_banner err w :
  errorBanner (app (handleGenerate_rejected err w)) =
  Some (if isQuotaError err then MSG_QUOTA else messageOrDefault err).
Proof.
  unfold errorBanner. rewrite rejected_errorMsg.
  destruct (isQuotaError err); [reflexivity|].
  unfold messageOrDefault. destruct (message err) as [[|c m]|]; reflexivity.
Qed.

End Banner.

(** X8. A denial leaves no trace once the text is edited: editing the text
    after a denied request gives the state an edit alone would have given,
    with no error shown; state, result, counters and countdown are those of
    before the request. *)
Theorem X8_edit_undoes_denial (s : AppState) (v : jsstring) :
  JsString.trim (text s) = [] \/ dailyReached 1500 s
  \/ 15 <= minuteRequests s ->
  let s' := handleTextChange v (fst (handleGenerate_begin s)) in
  s' = setErrorMsg None (setText v s)
  /\ errorBanner s' = None
  /\ status s' = status s
  /\ generatedAudio s' = generatedAudio s.
Proof.
  intros H. apply begin_no_call_iff in H.
  destruct (begin_denied_shape s H) as (c & m & -> & _).
  cbv zeta. destruct s; simpl. auto.
Qed.

(** X8 on a blank text replaced by a word. *)
Lemma X8_edit_undoes_denial_witness :
  handleTextChange js:"hi" (fst (handleGenerate_begin (typed js:" "))) =
  typed js:"hi".
Proof.
  destruct (X8_edit_undoes_denial (typed js:" ") js:"hi") as (H & _).
  - left. reflexivity.
  - rewrite H. reflexivity.
Defined.

(** X9. The link to change the key is shown under the banner exactly when
    the message contains "Quota exceeded".  No denial shows it, the
    daily-limit denial included.  After a rejected call it is shown when
    the error counts as quota-exceeded, or when the error's own message
    contains "Quota exceeded", and in no other case. *)
Theorem X9_change_key_link :
  (forall s, snd (handleGenerate_begin s) = None ->
     changeKeyLink (fst (handleGenerate_begin s)) = false)
  /\ (forall err w,
       changeKeyLink (app (handleGenerate_rejected err w)) = true <->
       QuotaExceeded err
       \/ exists m, message err = Some m /\ contains m js:"Quota exceeded").
Proof.
  split.
  - intros s H. destruct (begin_denied_shape s H) as (c & m & -> & Hi).
    unfold changeKeyLink, errorBanner. simpl. exact Hi.
  - intros err w. unfold changeKeyLink. rewrite rejected_banner.
    pose proof (isQuotaError_spec err) as Hq.
    destruct (isQuotaError err) eqn:E.
    + split; [intros _; left; now apply Hq | reflexivity].
    + assert (Hn : ~ QuotaExceeded err) by (rewrite <- Hq; discriminate).
      unfold messageOrDefault.
      destruct (message err) as [[|c m]|]; simpl JsString.truthy; cbv iota.
      * split; [discriminate|]. intros [?|(m & [= <-] & a & b & Hm)];
          [contradiction|]. destruct a; discriminate Hm.
      * rewrite includes_spec. split.
        -- intros (a & b & Hm). right. exists (c :: m). split; [reflexivity|].
           exists a, b. exact Hm.
        -- intros [?|(m' & [= <-] & Hm)]; [contradiction | exact Hm].
      * split; [discriminate|]. intros [?|(m & Hm & _)];
          [contradiction | discriminate].
Qed.

(** X9 after a denial for the daily limit and after a 429. *)
Lemma X9_change_key_link_witness :
  changeKeyLink (fst (handleGenerate_begin
                        (setDailyRequests (Int 1500) (typed js:"hi")))) = false
  /\ changeKeyLink (app (handleGenerate_rejected
        (mkError (Some js:"HTTP 429") None)
        (mkWorld (typed js:"hi") emptyBrowser))) = true.
Proof.
  destruct X9_change_key_link as [Hd Hr]. split.
  - apply Hd. reflexivity.
  - apply Hr. left. left. eexists. split; [reflexivity|].
    exists js:"HTTP ", []. reflexivity.
Defined.

(** ** Runs of the page alone *)

Section PageRuns.

Lemma begin_denied_status s :
  snd (handleGenerate_begin s) = None ->
  status (fst (handleGenerate_begin s)) = status s.
Proof.
  intros H. destruct (begin_denied_shape s H) as (c & m & -> & _).
  reflexivity.
Qed.

Lemma generateDisabled_generating s :
  generateDisabled s = false -> status s <> GENERATING.
Proof.
  intros Hf Hg.
  assert (generateDisabled s = true) by (apply generateDisabled_spec; auto).
  congruence.
Qed.

Lemma step_page e sys :
  pageEvent e ->
  minuteInv sys
  /\ (status (app (world sys)) = GENERATING <-> inflight sys <> []) ->
  minuteInv (step e sys)
  /\ (status (app (world (step e sys))) = GENERATING <->
      inflight (step e sys) <> []).
Proof.
  intros He [Hinv Hg].
  destruct e; simpl in He; try contradiction.
  - split; [now apply step_inv|]. simpl.
    unfold tick. destruct (_ <=? _); exact Hg.
  - split; [now apply step_inv|]. simpl.
    pose proof (handleTextChange_frame value (app (world sys)))
      as (_ & _ & -> & _). exact Hg.
  - split; [now apply step_inv | exact Hg].
  - simpl. destruct (generateDisabled (app (world sys))) eqn:Ed; [auto|].
    assert (Hnil : inflight sys = []).
    { apply generateDisabled_generating in Ed.
      destruct (inflight sys) as [|r l]; [reflexivity|].
      exfalso. apply Ed, Hg. discriminate. }
    split; [now apply enterGenerate_inv|].
    destruct (enterGenerate_cases sys) as [[Hn ->] | [_ ->]]; simpl.
    + rewrite (begin_denied_status _ Hn). exact Hg.
    + rewrite Hnil. split; [discriminate | reflexivity].
  - split; [now apply step_inv|]. simpl.
    destruct (inflight sys !! i) as [r|] eqn:Hi; [|exact Hg]. simpl.
    destruct Hinv as [_ Hl].
    assert (Hd : delete i (inflight sys) = []).
    { apply lookup_lt_Some in Hi.
      destruct (inflight sys) as [|x [|y l]]; simpl in *; try lia.
      destruct i; [reflexivity | simpl in Hi; lia]. }
    rewrite Hd. split; [|congruence].
    destruct o as [a|err]; simpl; [discriminate|].
    pose proof (rejected_frame err (world sys)) as (-> & _). discriminate.
  - split; [now apply step_inv|].
    destruct aistudio as [|[|]]; simpl in *; [exact Hg | contradiction | exact Hg].
Qed.

End PageRuns.

(** X10. On the page alone, that is with [handleGenerate] reached through
    the button only and no key selection completing, the button's guard is
    enough: in every run of the mounted component at most one generation is
    in flight, the state is [GENERATING] exactly while one is, and the
    minute count never exceeds 15. *)
Theorem X10_button_serializes_generations
    (nowISO : jsstring) (b : Browser) (evs : list Event) :
  Forall pageEvent evs ->
  let sys := run evs (mount nowISO b) in
  (length (inflight sys) <= 1)%nat
  /\ (status (app (world sys)) = GENERATING <-> inflight sys <> [])
  /\ minuteRequests (app (world sys)) <= 15.
Proof.
  intros Hev. cbv zeta.
  assert (H : minuteInv (run evs (mount nowISO b))
              /\ (status (app (world (run evs (mount nowISO b)))) = GENERATING
                  <-> inflight (run evs (mount nowISO b)) <> [])).
  { apply (run_preserves
             (fun sys => minuteInv sys
                /\ (status (app (world sys)) = GENERATING <->
                    inflight sys <> []))
             pageEvent); [apply step_page | exact Hev |].
    unfold minuteInv, mount, loadDailyUsage. simpl.
    repeat (destruct (_ !! _)); repeat (destruct (JsString.truthy _));
      simpl; (split; [lia | split; [discriminate | congruence]]). }
  destruct H as [[Hm Hl] Hg]. split; [exact Hl | split; [exact Hg | lia]].
Qed.

(** X10 on a run where the button is pressed three times in a row. *)
Lemma X10_button_serializes_generations_witness :
  (length (inflight (run [TextChange js:"hi"; PressGenerate; PressGenerate;
                          Tick; PressGenerate]
                       (mount dayD emptyBrowser))) <= 1)%nat.
Proof.
  apply (X10_button_serializes_generations dayD emptyBrowser
           [TextChange js:"hi"; PressGenerate; PressGenerate; Tick;
            PressGenerate]).
  repeat constructor.
Defined.

(** ** One generation, from request to settlement *)



(** X12. A request that is allowed and then rejected ends in [ERROR] with a
    non-empty message shown and the error logged; the result held before
    the request is gone, since the request cleared it; the daily count, the
    minute count, the countdown and the store are those of before the
    request, and nothing is left in flight. *)
Theorem X12_rejected_generation_costs_nothing
    (nowISO : jsstring) (err : JsError) (s : AppState) (b : Browser) :
  snd (handleGenerate_begin s) <> None ->
  let sys := run [CallGenerate; Settle 0 nowISO (Rejected err)]
               (mkSys (mkWorld s b) []) in
  status (app (world sys)) = ERROR
  /\ generatedAudio (app (world sys)) = None
  /\ (exists c m, errorBanner (app (world sys)) = Some (c :: m))
  /\ dailyRequests (app (world sys)) = dailyRequests s
  /\ minuteRequests (app (world sys)) = minuteRequests s
  /\ secondsUntilReset (app (world sys)) = secondsUntilReset s
  /\ localStorage (browser (world sys)) = localStorage b
  /\ console (browser (world sys)) = console b ++ [err]
  /\ inflight sys = [].
Proof.
  intros Hc. cbv zeta. unfold run. cbn [foldl]. cbn [step].
  destruct (enterGenerate_cases (mkSys (mkWorld s b) [])) as [[Hn _] | [_ ->]];
    [simpl in Hn; contradiction|].
  cbn [inflight world app browser app_nil_l]. simpl lookup. cbv iota beta.
  cbn [world inflight handleGenerate_settle].
  match goal with
  | |- context [handleGenerate_rejected err ?w0] =>
      pose proof (rejected_frame err w0) as (Hs & Hd & Hm & Hse & Ha & Hl);
      pose proof (rejected_banner err w0) as Hb
  end.
  rewrite Hs, Hd, Hm, Hse, Ha, Hl, Hb.
  repeat split.
  - destruct (isQuotaError err); [eexists _, _; reflexivity|].
    unfold messageOrDefault. destruct (message err) as [[|c m]|];
      eexists _, _; reflexivity.
  - unfold handleGenerate_rejected. destruct (isQuotaError err); reflexivity.
Qed.

(** X12 on a component that held a result. *)
Lemma X12_rejected_generation_costs_nothing_witness :
  generatedAudio (app usedWorld) = Some sampleAudio
  /\ generatedAudio (app (world
       (run [CallGenerate; Settle 0 dayD (Rejected (mkError None (Some 500)))]
          (mkSys usedWorld [])))) = None.
Proof.
  split; [reflexivity|].
  apply (X12_rejected_generation_costs_nothing dayD
           (mkError None (Some 500)) (app usedWorld) (browser usedWorld)).
  vm_compute. discriminate.
Defined.

(** ** A record that is not a number *)

Section NotANumber.

Lemma step_nan e sys :
  noRotation e ->
  dailyRequests (app (world sys)) = NaN
  /\ Forall (fun r => dailyRequests r = NaN) (inflight sys) ->
  dailyRequests (app (world (step e sys))) = NaN
  /\ Forall (fun r => dailyRequests r = NaN) (inflight (step e sys)).
Proof.
  intros He [Hd Hf].
  assert (Henter : dailyRequests (app (world (enterGenerate sys))) = NaN
                   /\ Forall (fun r => dailyRequests r = NaN)
                        (inflight (enterGenerate sys))).
  { pose proof (begin_frame (app (world sys))) as (_ & _ & Hd' & _).
    destruct (enterGenerate_cases sys) as [[_ ->] | [_ ->]]; simpl.
    - now rewrite Hd'.
    - split; [exact Hd|]. apply Forall_app. split; [exact Hf|].
      constructor; [exact Hd | constructor]. }
  destruct e; simpl in *.
  - unfold tick. destruct (_ <=? _); simpl; auto.
  - now rewrite handleTextChange_daily.
  - auto.
  - destruct (generateDisabled _); [auto | exact Henter].
  - exact Henter.
  - destruct (inflight sys !! i) as [r|] eqn:Hi; [|auto]. simpl.
    split; [|apply (Forall_delete _ _ _ Hf)].
    destruct o as [a|err]; simpl.
    + rewrite Forall_lookup in Hf. now rewrite (Hf i r Hi).
    + pose proof (rejected_frame err (world sys)) as (_ & -> & _). exact Hd.
  - destruct aistudio as [|[|]]; simpl; auto. contradiction.
Qed.

End NotANumber.

(** X13. A stored record that does not read as a number switches the daily
    limit off.  When the record of the day loads as [NaN], then in every
    run in which no key selection completes the daily count stays [NaN]
    and so does the remaining credit; the daily limit never denies, so a
    request with a non-blank text is allowed whenever the minute count is
    below 15. *)
Theorem X13_unreadable_record_disables_daily_limit
    (nowISO : jsstring) (b : Browser) (evs : list Event) :
  persistedDaily nowISO b = NaN ->
  Forall noRotation evs ->
  let s := app (world (run evs (mount nowISO b))) in
  dailyRequests s = NaN
  /\ dailyRemaining s = NaN
  /\ ~ dailyReached 1500 s
  /\ (JsString.trim (text s) <> [] -> minuteRequests s < 15 ->
      snd (handleGenerate_begin s) = Some (mkCall (text s) (selectedVoice s))).
Proof.
  intros H0 Hev. cbv zeta.
  assert (H : dailyRequests (app (world (run evs (mount nowISO b)))) = NaN).
  { apply (run_preserves
             (fun sys => dailyRequests (app (world sys)) = NaN
                /\ Forall (fun r => dailyRequests r = NaN) (inflight sys))
             noRotation); [apply step_nan | exact Hev |].
    split; [exact H0 | constructor]. }
  assert (Hd : ~ dailyReached 1500 (app (world (run evs (mount nowISO b))))).
  { intros (d & Hd & _). congruence. }
  split; [exact H|]. split; [unfold dailyRemaining; now rewrite H|].
  split; [exact Hd|].
  intros Ht Hm. now rewrite begin_allowed.
Qed.

(** X13 on a record that holds letters, after one generation. *)
Lemma X13_unreadable_record_disables_daily_limit_witness :
  let b := mkBrowser {[ storageKey dayD := js:"n/a" ]} [] [] in
  dailyRequests (app (world
    (run [TextChange js:"hi"; PressGenerate;
          Settle 0 dayD (Fulfilled sampleAudio)] (mount dayD b)))) = NaN.
Proof.
  intros b.
  apply (X13_unreadable_record_disables_daily_limit dayD b
           [TextChange js:"hi"; PressGenerate;
            Settle 0 dayD (Fulfilled sampleAudio)]).
  - vm_compute. reflexivity.
  - repeat constructor.
Defined.

(** ** The store *)

Section Store.

Lemma step_other_record e sys k :
  (forall t, eventTime e = Some t -> k <> storageKey t) ->
  localStorage (browser (world (step e sys))) !! k =
  localStorage (browser (world sys)) !! k.
Proof.
  intros Hk. destruct e; simpl in *; try reflexivity.
  - destruct (generateDisabled _); [reflexivity|].
    destruct (enterGenerate_cases sys) as [[_ ->] | [_ ->]]; reflexivity.
  - destruct (enterGenerate_cases sys) as [[_ ->] | [_ ->]]; reflexivity.
  - destruct (inflight sys !! i) as [r|]; [|reflexivity]. simpl.
    destruct o as [a|err]; simpl.
    + apply lookup_insert_ne. intros E. now apply (Hk nowISO).
    + pose proof (rejected_frame err (world sys)) as (_ & _ & _ & _ & _ & ->).
      reflexivity.
  - destruct aistudio as [|[|]]; simpl; try reflexivity.
    apply lookup_delete_ne. intros E. now apply (Hk nowISO).
Qed.

End Store.

(** X14. The component only ever touches the record of the date an event
    bears: a key of the store that is not the storage key of the instant of
    any settlement or key selection of a run holds after the run what it
    held before.  Records of other days are neither rewritten nor
    removed. *)
Theorem X14_other_records_untouched
    (evs : list Event) (sys : Sys) (k : jsstring) :
  Forall (fun e => forall t, eventTime e = Some t -> k <> storageKey t) evs ->
  localStorage (browser (world (run evs sys))) !! k =
  localStorage (browser (world sys)) !! k.
Proof.
  intros Hev.
  apply (run_preserves
           (fun sys' => localStorage (browser (world sys')) !! k =
                        localStorage (browser (world sys)) !! k)
           (fun e => forall t, eventTime e = Some t -> k <> storageKey t));
    [|exact Hev | reflexivity].
  intros e sys' He Hs. now rewrite step_other_record.
Qed.

(** X14 on a key rotation and a generation of the day after. *)
Lemma X14_other_records_untouched_witness :
  localStorage (browser (world
    (run [ChangeApiKey (Available true) dayD1; CallGenerate;
          Settle 0 dayD1 (Fulfilled sampleAudio)] (mkSys usedWorld []))))
    !! storageKey dayD = Some js:"800".
Proof.
  rewrite (X14_other_records_untouched
             [ChangeApiKey (Available true) dayD1; CallGenerate;
              Settle 0 dayD1 (Fulfilled sampleAudio)]
             (mkSys usedWorld []) (storageKey dayD)).
  - vm_compute. reflexivity.
  - repeat constructor; intros t [= <-]; vm_compute; discriminate.
Defined.

(** ** The daily bar *)

Section DailyBar.

Lemma barColor_daily s s' :
  dailyRequests s = dailyRequests s' ->
  barColor s = barColor s' /\ dailyPercentage s = dailyPercentage s'.
Proof. unfold barColor, dailyPercentage. now intros ->. Qed.

Lemma bar_table :
  forallb (barChecked initialState) (seq 0 1501) = true.
Proof. vm_compute. reflexivity. Qed.

End DailyBar.

(** X15. For a daily count from 0 to 1500 the bar is red when more than
    1350 requests are used, yellow when more than 1125 are, and blue
    otherwise, the floating-point percentage falling on the right side of
    75 and 90 at every count; the percentage is at most 100.  A count that
    is not a number gives a blue bar. *)
Theorem X15_bar_colour_thresholds (s : AppState) :
  (forall d, dailyRequests s = Int d -> 0 <= d <= 1500 ->
     barColor s = barColorOfCount d
     /\ PrimFloat.leb (dailyPercentage s) (floatOfZ 100) = true)
  /\ (dailyRequests s = NaN -> barColor s = js:"bg-blue-500").
Proof.
  split.
  - intros d Hd Hr.
    pose proof bar_table as Ht. rewrite forallb_forall in Ht.
    specialize (Ht (Z.to_nat d)).
    assert (Hin : In (Z.to_nat d) (seq 0 1501)) by (apply in_seq; lia).
    specialize (Ht Hin). unfold barChecked in Ht. cbv zeta in Ht.
    rewrite Z2Nat.id in Ht by lia.
    apply andb_true_iff in Ht as [Hc Hp].
    apply bool_decide_eq_true in Hc.
    destruct (barColor_daily s (setDailyRequests (Int d) initialState))
      as [-> ->]; [now rewrite Hd|]. auto.
  - intros Hn.
    destruct (barColor_daily s (setDailyRequests NaN initialState))
      as [-> _]; [now rewrite Hn|]. vm_compute. reflexivity.
Qed.

(** X15 at the two thresholds and just above them. *)
Lemma X15_bar_colour_thresholds_witness :
  map (fun d => barColor (setDailyRequests (Int d) initialState))
      [1125; 1126; 1350; 1351]
  = [js:"bg-blue-500"; js:"bg-yellow-500"; js:"bg-yellow-500"; js:"bg-red-500"].
Proof.
  cbn [map].
  rewrite (proj1 (proj1 (X15_bar_colour_thresholds
             (setDailyRequests (Int 1125) initialState)) 1125 eq_refl
             ltac:(lia))),
    (proj1 (proj1 (X15_bar_colour_thresholds
             (setDailyRequests (Int 1126) initialState)) 1126 eq_refl
             ltac:(lia))),
    (proj1 (proj1 (X15_bar_colour_thresholds
             (setDailyRequests (Int 1350) initialState)) 1350 eq_refl
             ltac:(lia))),
    (proj1 (proj1 (X15_bar_colour_thresholds
             (setDailyRequests (Int 1351) initialState)) 1351 eq_refl
             ltac:(lia))).
  reflexivity.
Defined.

(** ** How settlements compose with the timer, a key selection and each
    other *)

Section Composition.


Lemma allowed_not_none s :
  JsString.trim (text s) <> [] -> ~ dailyReached 1500 s ->
  minuteRequests s < 15 ->
  snd (handleGenerate_begin s) <> None.
Proof. intros Ht Hd Hm. now rewrite begin_allowed. Qed.

End Composition.

(** X16. A tick and a fulfilled settlement commute, except at the end of
    the window: when the countdown is above 1 the two orders give the same
    component; when it is at 1 or below, a generation fulfilled just before
    the tick is forgotten by the minute count (0 after the tick), one
    fulfilled just after it is counted in the new window (1). *)
Theorem X16_settlement_at_window_end
    (sys : Sys) (i : nat) (t : jsstring) (a : GeneratedAudio) :
  is_Some (inflight sys !! i) ->
  (1 < secondsUntilReset (app (world sys)) ->
     step Tick (step (Settle i t (Fulfilled a)) sys) =
     step (Settle i t (Fulfilled a)) (step Tick sys))
  /\ (secondsUntilReset (app (world sys)) <= 1 ->
     minuteRequests (app (world
        (step Tick (step (Settle i t (Fulfilled a)) sys)))) = 0
     /\ minuteRequests (app (world
        (step (Settle i t (Fulfilled a)) (step Tick sys)))) = 1).
Proof.
  intros [r Hr]. simpl. rewrite Hr. simpl. split.
  - intros Hs. unfold onApp, tick. simpl.
    destruct (Z.leb_spec (secondsUntilReset (app (world sys))) 1); [lia|].
    reflexivity.
  - intros Hs. unfold onApp, tick. simpl.
    destruct (Z.leb_spec (secondsUntilReset (app (world sys))) 1); [|lia].
    split; reflexivity.
Qed.

(** X16 with one generation in flight and one second left. *)
Lemma X16_settlement_at_window_end_witness :
  let sys := mkSys (mkWorld (mkApp js:"Kore" js:"hi" [] GENERATING None None
                               (Int 3) 14 1) emptyBrowser)
               [mkApp js:"Kore" js:"hi" [] IDLE None None (Int 3) 14 1] in
  minuteRequests (app (world
    (step Tick (step (Settle 0 dayD (Fulfilled sampleAudio)) sys)))) = 0
  /\ minuteRequests (app (world
    (step (Settle 0 dayD (Fulfilled sampleAudio)) (step Tick sys)))) = 1.
Proof.
  intros sys.
  apply (X16_settlement_at_window_end sys 0 dayD sampleAudio).
  - exists (mkApp js:"Kore" js:"hi" [] IDLE None None (Int 3) 14 1).
    reflexivity.
  - simpl. lia.
Defined.





(** X19. What counts as an empty text: [handleGenerate] answers with the
    empty-input message, and calls nothing, exactly when every code unit of
    the text is white space (space, tab, line breaks, no-break space and
    the other Unicode spaces that [trim] removes), the empty text
    included. *)
Theorem X19_blank_text_is_white_space (s : AppState) :
  handleGenerate_begin s = (setErrorMsg (Some MSG_EMPTY) s, None) <->
  Forall (fun c => JsString.isWhiteSpace c = true) (text s).
Proof.
  assert (Hw : Forall (fun c => JsString.isWhiteSpace c = true) (text s) <->
               JsString.trim (text s) = []).
  { rewrite trim_nil_iff, List.forallb_forall, List.Forall_forall. reflexivity. }
  rewrite Hw. split; [|apply begin_empty].
  intros H. destruct (decide (JsString.trim (text s) = [])) as [Ht|Ht];
    [exact Ht|]. exfalso.
  destruct (JsNumber.ge (dailyRequests s) (Int 1500)) eqn:E.
  { apply ge_spec in E. rewrite begin_daily in H by assumption.
    apply (f_equal (fun p => errorMsg (fst p))) in H. discriminate H. }
  assert (Hd : ~ dailyReached 1500 s).
  { intros Hr. apply ge_spec in Hr. congruence. }
  destruct (Z_lt_le_dec (minuteRequests s) 15) as [Hm|Hm].
  - rewrite begin_allowed in H by assumption. discriminate H.
  - rewrite begin_minute in H by assumption.
    apply (f_equal (fun p => errorMsg (fst p))) in H. discriminate H.
Qed.

(** X19 on a text of a no-break space, an ideographic space and a line
    break, and on a text with one letter in it. *)
Lemma X19_blank_text_is_white_space_witness :
  snd (handleGenerate_begin (typed [0xA0; 0x3000; 0x0A]%N)) = None
  /\ handleGenerate_begin (typed js:" a ") <>
     (setErrorMsg (Some MSG_EMPTY) (typed js:" a "), None).
Proof.
  split.
  - rewrite (proj2 (X19_blank_text_is_white_space
                      (typed [0xA0; 0x3000; 0x0A]%N))); [reflexivity|].
    repeat constructor.
  - intros H. apply X19_blank_text_is_white_space in H.
    inversion H as [|? ? _ H']; subst. inversion H' as [|? ? Hc _]; subst.
    discriminate Hc.
Defined.
